(** * Verification of the daily trivia dispatcher of progphil-bot

    Shallow embedding of [src/bot/cogs/trivia.py]: the time-string check
    [Trivia._check_time], the schedule normalizer [Trivia._get_schedule],
    the one-minute gate [Trivia.trivia_loop] and the administrative commands
    [setup], [schedule], [channel] and [config] (with [textwrap.dedent]).

    Modelling conventions.
    - A Python [str] is a list of characters; the characters are ASCII
      ([ascii]).  Every character class used by the code and by
      [datetime.strptime] is a class of ASCII characters here.
    - [re.match] is modelled by a backtracking matcher over a small regex
      syntax, with Python's priorities: alternatives are tried left to right,
      [r?] is greedy, and [$] (without MULTILINE) matches at the end of the
      string or just before a final newline.
    - A naive [datetime] is an integer count of microseconds since
      [datetime.min] (0001-01-01 00:00); a [date] is its proleptic ordinal
      ([date.toordinal]); a [time] is a record of hour, minute, second and
      microsecond.
    - Each tick reads the clock once: [datetime.utcnow()] is the tick's UTC
      instant and [datetime.today()] is that instant shifted by the server's
      local UTC offset. *)

From Stdlib Require Import ZArith String Ascii List Bool Lia.
Import ListNotations.
Open Scope Z_scope.
Set Warnings "-register-all".

(* ------------------------------------------------------------------ *)
(** ** Python values and exceptions *)

Definition str := list ascii.

(** String literal in the sources, as a Python [str]. *)
Definition lit (s : string) : str := list_ascii_of_string s.

Inductive exn :=
| ValueError        (* datetime.strptime on a string that does not parse *)
| OverflowError     (* datetime arithmetic leaving [datetime.min, datetime.max] *)
| AttributeError    (* attribute lookup on None *)
| IndexError
| KeyError
| TypeError
| RequestException  (* transport failure inside requests.get *)
| JSONDecodeError   (* response.json() on a body that is not JSON *)
| HTTPException.    (* discord: the message could not be delivered *)

(** Result of a Python computation: a value, or a raised exception. *)
Inductive result (A : Type) :=
| Ok (a : A)
| Raise (e : exn).
Arguments Ok {A} a.
Arguments Raise {A} e.

(** The only Python objects a test [x is None] is applied to in this code. *)
Inductive pyobj :=
| PyNone
| PyBool (b : bool).

Definition is_None (o : pyobj) : bool :=
  match o with PyNone => true | PyBool _ => false end.

(* ------------------------------------------------------------------ *)
(** ** Regular expressions, as [re.match] runs them *)

Inductive regex :=
| REmpty
| RClass (p : ascii -> bool)
| RSeq (r1 r2 : regex)
| RAlt (r1 r2 : regex)
| ROpt (r : regex)
| RGroup (name : string) (r : regex)
| RBol
| REol.

Definition newline : ascii := Ascii.ascii_of_nat 10.

(** Backtracking matcher in continuation-passing style.  [n] is the length
    of the whole subject (for [^]); [caps] the groups captured so far, the
    latest first; [k] the rest of the match.  The first success in Python's
    priority order is returned. *)
Fixpoint rmatch {A : Type} (n : nat) (r : regex) (s : str)
    (caps : list (string * str)) (k : str -> list (string * str) -> option A)
    : option A :=
  match r with
  | REmpty => k s caps
  | RClass p =>
      match s with
      | c :: s' => if p c then k s' caps else None
      | [] => None
      end
  | RSeq r1 r2 => rmatch n r1 s caps (fun s' caps' => rmatch n r2 s' caps' k)
  | RAlt r1 r2 =>
      match rmatch n r1 s caps k with
      | Some x => Some x
      | None => rmatch n r2 s caps k
      end
  | ROpt r1 =>
      match rmatch n r1 s caps k with
      | Some x => Some x
      | None => k s caps
      end
  | RGroup g r1 =>
      rmatch n r1 s caps
        (fun s' caps' => k s' ((g, firstn (length s - length s')%nat s) :: caps'))
  | RBol => if Nat.eqb (length s) n then k s caps else None
  | REol =>
      match s with
      | [] => k s caps
      | [c] => if Ascii.eqb c newline then k s caps else None
      | _ => None
      end
  end.

(** [re.match(pattern, s)]: [Some (rest, groups)] for the match object,
    where [rest] is the part of [s] after [match.end()]. *)
Definition re_match (pattern : regex) (s : str)
    : option (str * list (string * str)) :=
  rmatch (length s) pattern s [] (fun rest caps => Some (rest, caps)).

Definition code (c : ascii) : N := N_of_ascii c.

(** [[lo-hi]] *)
Definition in_range (lo hi : ascii) (c : ascii) : bool :=
  (code lo <=? code c)%N && (code c <=? code hi)%N.

(** [[abc]] *)
Definition in_set (cs : string) (c : ascii) : bool :=
  existsb (Ascii.eqb c) (list_ascii_of_string cs).

Definition chr (a : ascii) : regex := RClass (Ascii.eqb a).

Fixpoint rseq (rs : list regex) : regex :=
  match rs with
  | [] => REmpty
  | r :: rs' => RSeq r (rseq rs')
  end.

(* ------------------------------------------------------------------ *)
(** ** [Trivia._check_time] *)

(** [r'^([01]?[0-9]|2[0-3]):[0-5][0-9]$'] *)
Definition check_time_pattern : regex :=
  rseq [ RBol;
         RGroup "1" (RAlt (RSeq (ROpt (RClass (in_set "01")))
                                (RClass (in_range "0" "9")))
                          (RSeq (chr "2") (RClass (in_range "0" "3"))));
         chr ":";
         RClass (in_range "0" "5");
         RClass (in_range "0" "9");
         REol ].

(** [return re.match(pattern, time_string) is not None] *)
Definition _check_time (time_string : str) : bool :=
  match re_match check_time_pattern time_string with
  | Some _ => true
  | None => false
  end.

(* ------------------------------------------------------------------ *)
(** ** Dates, times and datetimes *)

Definition MICROSECOND : Z := 1.
Definition SECOND : Z := 1000000.
Definition MINUTE : Z := 60 * SECOND.
Definition HOUR : Z := 60 * MINUTE.
Definition DAY : Z := 24 * HOUR.

(** [date.max.toordinal()] *)
Definition MAXORDINAL : Z := 3652059.

Record time := mk_time {
  hour : Z; minute : Z; second : Z; microsecond : Z
}.

(** [time(h, m)] *)
Definition time_hm (h m : Z) : time := mk_time h m 0 0.

Definition time_key (t : time) : Z :=
  hour t * HOUR + minute t * MINUTE + second t * SECOND + microsecond t.

(** Python compares [time] objects field by field; for valid times this is
    the order of [time_key]. *)
Definition time_ge (a b : time) : bool := time_key b <=? time_key a.

(** A naive [datetime]: microseconds since [datetime.min]. *)
Definition datetime := Z.

(** [dt.date()], as an ordinal. *)
Definition dt_date (dt : datetime) : Z := dt / DAY + 1.

(** [dt.time()] *)
Definition dt_time (dt : datetime) : time :=
  let us := dt mod DAY in
  mk_time (us / HOUR) ((us mod HOUR) / MINUTE) ((us mod MINUTE) / SECOND)
          (us mod SECOND).

(** [datetime.combine(d, t)] for a date ordinal [d]. *)
Definition combine (d : Z) (t : time) : datetime := (d - 1) * DAY + time_key t.

(** [dt - timedelta(us)]: raises [OverflowError] outside the datetime range. *)
Definition dt_sub (dt : datetime) (delta : Z) : result datetime :=
  let r := dt - delta in
  if (r <? 0) || (MAXORDINAL * DAY <=? r) then Raise OverflowError else Ok r.

(* ------------------------------------------------------------------ *)
(** ** [datetime.strptime(s, "%H:%M").time()] *)

(** [_strptime] compiles ["%H:%M"] to
    [(?P<H>2[0-3]|[0-1]\d|\d):(?P<M>[0-5]\d|\d)] ([\d] on ASCII input is
    [[0-9]]). *)
Definition strptime_HM_pattern : regex :=
  rseq [ RGroup "H" (RAlt (RSeq (chr "2") (RClass (in_range "0" "3")))
                    (RAlt (RSeq (RClass (in_range "0" "1")) (RClass (in_range "0" "9")))
                          (RClass (in_range "0" "9"))));
         chr ":";
         RGroup "M" (RAlt (RSeq (RClass (in_range "0" "5")) (RClass (in_range "0" "9")))
                          (RClass (in_range "0" "9"))) ].

Fixpoint group (g : string) (caps : list (string * str)) : str :=
  match caps with
  | [] => []
  | (g', v) :: caps' => if String.eqb g g' then v else group g caps'
  end.

(** [int(s)] on a string of ASCII digits. *)
Definition int_of_digits (s : str) : Z :=
  fold_left (fun acc c => acc * 10 + (Z.of_N (code c) - 48)) s 0.

(** [found = format_regex.match(data_string)]; no match, or
    [len(data_string) != found.end()], raise [ValueError]. *)
Definition strptime_HM (data_string : str) : result time :=
  match re_match strptime_HM_pattern data_string with
  | None => Raise ValueError
  | Some (rest, caps) =>
      match rest with
      | [] => Ok (time_hm (int_of_digits (group "H" caps))
                          (int_of_digits (group "M" caps)))
      | _ :: _ => Raise ValueError
      end
  end.

(* ------------------------------------------------------------------ *)
(** ** Persisted configuration *)

Record Config := mk_config {
  channel_id : Z;
  schedule : str
}.

(** The offset of the stored schedule: [timedelta(hours=8)]. *)
Definition SCHEDULE_OFFSET : Z := 8 * HOUR.

(** [Trivia._get_schedule], with [datetime.today()] given as [today]. *)
Definition _get_schedule (config : option Config) (today : datetime) : result time :=
  match config with
  | None => Ok (time_hm 0 0)
  | Some cfg =>
      match strptime_HM (schedule cfg) with
      | Raise e => Raise e
      | Ok schedule_utc_plus_8 =>
          let schedule_with_day := combine (dt_date today) schedule_utc_plus_8 in
          match dt_sub schedule_with_day SCHEDULE_OFFSET with
          | Raise e => Raise e
          | Ok sched => Ok (dt_time sched)
          end
      end
  end.

(* ------------------------------------------------------------------ *)
(** ** The cog's state, the world around it, and the tick's effects *)

(** The attributes of a [Trivia] instance that the gate reads and writes;
    [sent_date] is [None] or a date ordinal. *)
Record Trivia := mk_trivia {
  sent_today : bool;
  sent_date : option Z;
  config : option Config
}.

(** [Trivia.__init__] after [cog_load]: the config is whatever the store
    returned. *)
Definition init (cfg : option Config) : Trivia := mk_trivia false None cfg.

(** Decoded JSON, as [response.json()] returns it. *)
Inductive json :=
| JStr (s : str)
| JArr (l : list json)
| JObj (kvs : list (str * json))
| JOther.   (* numbers, booleans, null *)

(** What [requests.get] yields: a response (status code and body, the body
    [None] when it is not JSON), or a transport failure. *)
Inductive FetchResult :=
| Response (status_code : Z) (body : option json)
| TransportError.

Inductive Message :=
| Text (content : str)
| EmbedMsg (title : str) (description : json) (image : str).

(** Observable effects of a tick: the call to the content API, and the
    messages posted to a channel. *)
Inductive Action :=
| Fetch
| Send (channel : Z) (m : Message).

(** What one tick observes: the UTC instant of the clock, the server's local
    UTC offset, the channels the bot can see ([bot.get_channel]), the
    answer of the content API, and whether Discord accepts the message. *)
Record Env := mk_env {
  utc_now : datetime;
  local_offset : Z;
  channels : list Z;
  api : FetchResult;
  delivery_ok : bool
}.

(** [datetime.utcnow()] and [datetime.today()] *)
Definition datetime_utcnow (env : Env) : datetime := utc_now env.
Definition datetime_today (env : Env) : datetime := utc_now env + local_offset env.

(** [bot.get_channel(id)]: [None] when the channel is not visible. *)
Definition get_channel (env : Env) (id : Z) : option Z :=
  if existsb (Z.eqb id) (channels env) then Some id else None.

(* ------------------------------------------------------------------ *)
(** ** A state-and-exception monad for the body of the coroutine *)

Record World := mk_world {
  self : Trivia;
  log : list Action
}.

Definition M (A : Type) := World -> World * result A.

Definition ret {A} (a : A) : M A := fun w => (w, Ok a).

Definition bind {A B} (m : M A) (k : A -> M B) : M B :=
  fun w => match m w with
           | (w', Ok a) => k a w'
           | (w', Raise e) => (w', Raise e)
           end.

Definition throw {A} (e : exn) : M A := fun w => (w, Raise e).

Definition lift {A} (r : result A) : M A := fun w => (w, r).

Definition get_self : M Trivia := fun w => (w, Ok (self w)).

Definition put_self (t : Trivia) : M unit :=
  fun w => (mk_world t (log w), Ok tt).

Definition emit (a : Action) : M unit :=
  fun w => (mk_world (self w) (log w ++ [a]), Ok tt).

Notation "'let*' x ':=' m 'in' k" := (bind m (fun x => k))
  (at level 200, x name, m at level 100, k at level 200).
Notation "m ;; k" := (bind m (fun _ => k)) (at level 100, right associativity).

Definition set_sent_today (b : bool) : M unit :=
  let* s := get_self in put_self (mk_trivia b (sent_date s) (config s)).

Definition set_sent_date (d : option Z) : M unit :=
  let* s := get_self in put_self (mk_trivia (sent_today s) d (config s)).

(** [await channel.send(...)]: on [None] the attribute lookup raises. *)
Definition channel_send (env : Env) (ch : option Z) (m : Message) : M unit :=
  match ch with
  | None => throw AttributeError
  | Some c => if delivery_ok env then emit (Send c m) else throw HTTPException
  end.

(** [date != self.sent_date] where [sent_date] may be [None]. *)
Definition date_ne (d : Z) (sd : option Z) : bool :=
  match sd with
  | None => true
  | Some d' => negb (d =? d')
  end.

(** Decimal rendering of an integer, as an f-string does it. *)
Fixpoint digits_rev (fuel : nat) (n : Z) : str :=
  match fuel with
  | O => []
  | S f =>
      ascii_of_nat (Z.to_nat (48 + n mod 10))
        :: (if n <? 10 then [] else digits_rev f (n / 10))
  end.

Definition str_of_Z (n : Z) : str :=
  if n <? 0 then "-"%char :: rev (digits_rev (S (Z.to_nat (Z.log2 (- n)))) (- n))
  else rev (digits_rev (S (Z.to_nat (Z.log2 n))) n).

Definition fetch_error_message (status : Z) : str :=
  lit "An error occurred while fetching trivia. Error code: " ++ str_of_Z status.

Definition TRIVIA_TITLE : str := lit "Prof. Progphil Trivia of the Day".
Definition TRIVIA_IMAGE : str :=
  lit "https://cdn.discordapp.com/attachments/972510204505763951/1076388478088122368/image-12.png".

(** [response.json()] *)
Definition response_json (body : option json) : result json :=
  match body with
  | Some j => Ok j
  | None => Raise JSONDecodeError
  end.

(** [x[0]] on a decoded JSON value. *)
Definition json_index0 (j : json) : result json :=
  match j with
  | JArr (x :: _) => Ok x
  | JArr [] => Raise IndexError
  | JObj _ => Raise KeyError
  | JStr (c :: _) => Ok (JStr [c])
  | JStr [] => Raise IndexError
  | JOther => Raise TypeError
  end.

Fixpoint str_eqb (a b : str) : bool :=
  match a, b with
  | [], [] => true
  | x :: a', y :: b' => Ascii.eqb x y && str_eqb a' b'
  | _, _ => false
  end.

(** [x[key]]; [json.loads] keeps the last of duplicated keys. *)
Definition json_key (key : str) (j : json) : result json :=
  match j with
  | JObj kvs =>
      match find (fun kv => str_eqb (fst kv) key) (rev kvs) with
      | Some (_, v) => Ok v
      | None => Raise KeyError
      end
  | _ => Raise TypeError
  end.

Definition and_then {A B} (r : result A) (f : A -> result B) : result B :=
  match r with Ok a => f a | Raise e => Raise e end.

(* ------------------------------------------------------------------ *)
(** ** [Trivia.trivia_loop]: one tick of the gate *)

(** Lines 88-118: the send sequence, once the gate has decided to fire. *)
Definition send_sequence (env : Env) (cfg : Config) : M unit :=
  let trivia_channel := get_channel env (channel_id cfg) in
  emit Fetch ;;
  match api env with
  | TransportError => throw RequestException
  | Response status body =>
      if negb (status =? 200) then
        channel_send env trivia_channel (Text (fetch_error_message status))
      else
        let* response_json := lift (response_json body) in
        let* fact := lift (and_then (json_index0 response_json) (json_key (lit "fact"))) in
        channel_send env trivia_channel (EmbedMsg TRIVIA_TITLE fact TRIVIA_IMAGE) ;;
        set_sent_today true ;;
        set_sent_date (Some (dt_date (datetime_today env)))
  end.

(** Lines 66-118: one tick of the gate. *)
Definition trivia_loop (env : Env) : M unit :=
  let* s := get_self in
  match config s with
  | None => ret tt
  | Some cfg =>
      (if date_ne (dt_date (datetime_today env)) (sent_date s)
       then set_sent_today false else ret tt) ;;
      let* s := get_self in
      let* sched := lift (_get_schedule (config s) (datetime_today env)) in
      if negb (time_ge (dt_time (datetime_utcnow env)) sched) then ret tt else
      let* s := get_self in
      if sent_today s then ret tt else
      send_sequence env cfg
  end.

(** [tasks.loop] catches the exceptions it treats as transient ([OSError],
    which [requests]' exceptions derive from, and the connection errors of
    aiohttp and discord) and runs the next iteration; any other exception
    is re-raised and stops the loop. *)
Definition loop_survives (e : exn) : bool :=
  match e with
  | RequestException | JSONDecodeError => true
  | _ => false
  end.

(** A run of the timer task over successive ticks: the final world, and the
    exception that stopped the loop, if any. *)
Fixpoint run (envs : list Env) (w : World) : World * option exn :=
  match envs with
  | [] => (w, None)
  | env :: envs' =>
      match trivia_loop env w with
      | (w', Ok _) => run envs' w'
      | (w', Raise e) => if loop_survives e then run envs' w' else (w', Some e)
      end
  end.

(** Helpers for concrete runs. *)
Definition fetches (l : list Action) : nat :=
  length (filter (fun a => match a with Fetch => true | _ => false end) l).

Definition tick_env (t : datetime) (tz : Z) (chans : list Z) (r : FetchResult) : Env :=
  mk_env t tz chans r true.

Definition bees : FetchResult :=
  Response 200 (Some (JArr [JObj [(lit "fact", JStr (lit "Bees can fly."))]])).

(* ------------------------------------------------------------------ *)
(** ** The configuration store and the administrative commands *)

(** Modelled from the spec: [database.trivia.TriviaDB], the Config Store,
    which is not among the sources.  The spec (sections 2, 3 and 6) says it
    persists a single record of two fields, [channel_id] and [schedule],
    and supports insert, read and update; the record is absent until the
    first insert. *)
Definition Store := option Config.

(** [await db.insert(channel_id=..., schedule=...)] *)
Definition db_insert (row : Store) (channel_id : Z) (schedule : str) : Store :=
  Some (mk_config channel_id schedule).

(** [await db.update(channel_id=..., schedule=...)]: rewrites both fields of
    the record, when there is one. *)
Definition db_update (row : Store) (channel_id : Z) (schedule : str) : Store :=
  match row with
  | Some _ => Some (mk_config channel_id schedule)
  | None => None
  end.

(** [await db.get_config()] *)
Definition db_get_config (row : Store) : option Config := row.

(** The state a command sees: the cog, the store, and the (ephemeral)
    replies sent to the invoking user. *)
Record CmdWorld := mk_cmd_world {
  cog : Trivia;
  db : Store;
  replies : list str
}.

Definition reply (w : CmdWorld) (m : str) : CmdWorld :=
  mk_cmd_world (cog w) (db w) (replies w ++ [m]).

Definition with_config (t : Trivia) (c : option Config) : Trivia :=
  mk_trivia (sent_today t) (sent_date t) c.

Definition MSG_SETUP_FIRST : str := lit "Please setup the trivia first, use /trivia setup.".
Definition MSG_BAD_TIME : str := lit "Please enter a correct time. 00:00 to 23:59".
Definition MSG_ALREADY : str :=
  lit "Trivia is already setup, use /trivia channel and /trivia schedule to change the channel and schedule.".

(** [Trivia.schedule] *)
Definition cmd_schedule (schedule : str) (w : CmdWorld) : CmdWorld :=
  match config (cog w) with
  | None => reply w MSG_SETUP_FIRST
  | Some cfg =>
      if is_None (PyBool (_check_time schedule)) then reply w MSG_BAD_TIME
      else
        let db' := db_update (db w) (channel_id cfg) schedule in
        let cog' := with_config (cog w) (db_get_config db') in
        reply (mk_cmd_world cog' db' (replies w))
              (lit "Trivia session scheduled at " ++ schedule)
  end.

(** [Trivia.channel], for the text channel of id [channel]. *)
Definition cmd_channel (channel : Z) (w : CmdWorld) : CmdWorld :=
  match config (cog w) with
  | None => reply w MSG_SETUP_FIRST
  | Some cfg =>
      let db' := db_update (db w) channel (schedule cfg) in
      let cog' := with_config (cog w) (db_get_config db') in
      reply (mk_cmd_world cog' db' (replies w)) (lit "Trivia channel set")
  end.

(** [Trivia.setup], for the text channel of id [channel]. *)
Definition cmd_setup (channel : Z) (schedule : str) (w : CmdWorld) : CmdWorld :=
  match config (cog w) with
  | Some _ => reply w MSG_ALREADY
  | None =>
      if is_None (PyBool (_check_time schedule)) then reply w MSG_BAD_TIME
      else
        let db' := db_insert (db w) channel schedule in
        let cog' := with_config (cog w) (db_get_config db') in
        reply (mk_cmd_world cog' db' (replies w)) (lit "Trivia setup")
  end.

(* ------------------------------------------------------------------ *)
(** ** Formats of schedule strings, as the claims word them *)

Definition is_digit (c : ascii) : bool := in_range "0" "9" c.

(** The spec's [HH:MM]: a two-digit hour 00-23, [:], a two-digit minute
    00-59. *)
Definition valid_HHMM (s : str) : bool :=
  match s with
  | [h1; h2; colon; m1; m2] =>
      ((in_range "0" "1" h1 && is_digit h2) || (Ascii.eqb "2" h1 && in_range "0" "3" h2))
      && Ascii.eqb ":" colon && in_range "0" "5" m1 && is_digit m2
  | _ => false
  end.

(** The hour written with one digit 0-9 or two digits 00-23, then [:] and a
    two-digit minute 00-59. *)
Definition valid_H_or_HH_MM (s : str) : bool :=
  match s with
  | [h; colon; m1; m2] =>
      is_digit h && Ascii.eqb ":" colon && in_range "0" "5" m1 && is_digit m2
  | _ => valid_HHMM s
  end.

(** The canonical [HH:MM] spelling of hour [h] and minute [m]. *)
Definition digit_char (d : Z) : ascii := ascii_of_nat (Z.to_nat (48 + d)).

Definition hhmm (h m : Z) : str :=
  [digit_char (h / 10); digit_char (h mod 10); ":"%char;
   digit_char (m / 10); digit_char (m mod 10)].

(** The classes of characters that the patterns of this file distinguish. *)
Inductive cclass := C01 | C2 | C3 | C45 | C69 | CColon | CNL | COther.

Definition cls (c : ascii) : cclass :=
  let n := code c in
  if (48 <=? n)%N && (n <=? 49)%N then C01
  else if (n =? 50)%N then C2
  else if (n =? 51)%N then C3
  else if (52 <=? n)%N && (n <=? 53)%N then C45
  else if (54 <=? n)%N && (n <=? 57)%N then C69
  else if (n =? 58)%N then CColon
  else if (n =? 10)%N then CNL
  else COther.

(* ------------------------------------------------------------------ *)
(** ** Vocabulary of the statements about ticks *)

(** The dispatch state after lines 76-78 (the day-rollover reset). *)
Definition after_rollover (env : Env) (s : Trivia) : Trivia :=
  mk_trivia (if date_ne (dt_date (datetime_today env)) (sent_date s) then false
             else sent_today s)
            (sent_date s) (config s).

(** The gate of line 80 lets [env]'s tick through: the normalized schedule
    is computed and the UTC time of day is at or after it. *)
Definition at_or_after_fire_time (cfg : Config) (env : Env) : bool :=
  match _get_schedule (Some cfg) (datetime_today env) with
  | Ok f => time_ge (dt_time (datetime_utcnow env)) f
  | Raise _ => false
  end.

(** The failure notice a tick posts for a non-200 answer of the API. *)
Definition failure_notice (ch : Z) (env : Env) : list Action :=
  match api env with
  | Response status _ => [Fetch; Send ch (Text (fetch_error_message status))]
  | TransportError => [Fetch]
  end.

(** The API answered with a non-200 status. *)
Definition api_failed (env : Env) : bool :=
  match api env with
  | Response status _ => negb (status =? 200)
  | TransportError => false
  end.

(** The fact extracted by lines 105-109 from a 200 answer. *)
Definition api_fact (env : Env) : result json :=
  match api env with
  | Response status body =>
      if status =? 200 then
        and_then (response_json body) (fun j => and_then (json_index0 j) (json_key (lit "fact")))
      else Raise ValueError
  | TransportError => Raise ValueError
  end.

Definition is_failure_notice (a : Action) : bool :=
  match a with Send _ (Text _) => true | _ => false end.

Definition is_trivia_post (a : Action) : bool :=
  match a with Send _ (EmbedMsg _ _ _) => true | _ => false end.

(** Number of failure notices and of trivia posts in a log. *)
Definition failure_notices (l : list Action) : nat := length (filter is_failure_notice l).
Definition trivia_posts (l : list Action) : nat := length (filter is_trivia_post l).

(** A tick every minute from [start], on a server at local UTC offset [tz],
    with one visible channel and an API that always answers with a fact. *)
Definition minute_ticks (start : datetime) (tz : Z) (n : nat) : list Env :=
  map (fun i => tick_env (start + Z.of_nat i * MINUTE) tz [42] bees) (seq 0 n).

(* ------------------------------------------------------------------ *)
(** ** [Trivia.config] *)

(** [bot.get_channel(id)] for the channels the bot can see. *)
Definition bot_get_channel (visible : list Z) (id : Z) : option Z :=
  if existsb (Z.eqb id) visible then Some id else None.

(** [TextChannel.mention]: [f"<#{self.id}>"] *)
Definition mention (id : Z) : str := lit "<#" ++ str_of_Z id ++ lit ">".

Definition space : ascii := " "%char.
Definition tab : ascii := Ascii.ascii_of_nat 9.
Definition spaces (n : nat) : str := repeat space n.

(** The f-string of lines 177-184, before [dedent]: the replacement field
    of lines 178-182 sits after ["Channel: "] on line 178, and the closing
    quotes are indented by 12 spaces. *)
Definition config_fstring (mention schedule : str) : str :=
  [newline] ++ spaces 16 ++ lit "Channel: " ++ mention
  ++ [newline] ++ spaces 16 ++ lit "Schedule: " ++ schedule
  ++ [newline] ++ spaces 12.

(** [textwrap.dedent], line by line.  [text.split('\n')] and
    ['\n'.join(lines)]: *)
Fixpoint split_lines (s : str) : list str :=
  match s with
  | [] => [[]]
  | c :: s' =>
      if Ascii.eqb c newline then [] :: split_lines s'
      else match split_lines s' with
           | l :: ls => (c :: l) :: ls
           | [] => [[c]]
           end
  end.

Fixpoint join_lines (ls : list str) : str :=
  match ls with
  | [] => []
  | [l] => l
  | l :: ls' => l ++ newline :: join_lines ls'
  end.

(** [[ \t]] *)
Definition is_ws (c : ascii) : bool := Ascii.eqb c space || Ascii.eqb c tab.

(** A line matched by [_whitespace_only_re = '^[ \t]+$'] (MULTILINE). *)
Definition ws_only (l : str) : bool :=
  match l with [] => false | _ => forallb is_ws l end.

(** The first group of [_leading_whitespace_re]: the spaces and tabs that
    start a line having a character other than space, tab and newline. *)
Fixpoint leading_ws (l : str) : str :=
  match l with
  | c :: l' => if is_ws c then c :: leading_ws l' else []
  | [] => []
  end.

(** [_leading_whitespace_re.findall(text)] *)
Definition indents (ls : list str) : list str :=
  map leading_ws (filter (fun l => negb (forallb is_ws l)) ls).

Fixpoint common_prefix (a b : str) : str :=
  match a, b with
  | x :: a', y :: b' => if Ascii.eqb x y then x :: common_prefix a' b' else []
  | _, _ => []
  end.

(** The loop over the indents: [margin] starts as [None]; each of the three
    branches leaves the longest common prefix of [margin] and [indent]. *)
Definition margin_of (ids : list str) : option str :=
  fold_left (fun m i => match m with
                        | None => Some i
                        | Some m => Some (common_prefix m i)
                        end) ids None.

Fixpoint prefixb (p l : str) : bool :=
  match p, l with
  | [], _ => true
  | x :: p', y :: l' => Ascii.eqb x y && prefixb p' l'
  | _ :: _, [] => false
  end.

(** [text = _whitespace_only_re.sub('', text)], the margin computed from the
    indents, then [if margin: text = re.sub(r'(?m)^' + margin, '', text)]. *)
Definition dedent (text : str) : str :=
  let ls := map (fun l => if ws_only l then [] else l) (split_lines text) in
  match margin_of (indents ls) with
  | Some ((_ :: _) as m) =>
      join_lines (map (fun l => if prefixb m l then skipn (length m) l else l) ls)
  | _ => join_lines ls
  end.

(** The reply of a command: an ephemeral text message or an embed. *)
Inductive Reply :=
| ReplyText (m : str)
| ReplyEmbed (title description : str).

(** [Trivia.config], with the channels the bot can see: on an unresolved
    channel, [.mention] is looked up on [None]. *)
Definition cmd_config (visible : list Z) (t : Trivia) : result Reply :=
  match config t with
  | None => Ok (ReplyText MSG_SETUP_FIRST)
  | Some cfg =>
      match bot_get_channel visible (channel_id cfg) with
      | None => Raise AttributeError
      | Some ch =>
          Ok (ReplyEmbed (lit "Trivia Config")
                (dedent (config_fstring (mention ch) (schedule cfg))))
      end
  end.

(* ------------------------------------------------------------------ *)
(** ** Sanity checks of the embedding on concrete inputs *)

Example check_time_ex1 : _check_time (lit "16:23") = true. Proof. reflexivity. Qed.
Example check_time_ex2 : _check_time (lit "1:24") = true. Proof. reflexivity. Qed.
Example check_time_ex3 : _check_time (lit "24:00") = false. Proof. reflexivity. Qed.
Example check_time_ex4 : _check_time (lit "9:5") = false. Proof. reflexivity. Qed.
Example check_time_ex5 : _check_time (lit "abc") = false. Proof. reflexivity. Qed.
Example check_time_ex6 : _check_time (lit "09:00" ++ [newline]) = true. Proof. reflexivity. Qed.
Example check_time_ex7 : _check_time (lit "09:00" ++ [newline; newline]) = false. Proof. reflexivity. Qed.
Example strptime_ex1 : strptime_HM (lit "09:05") = Ok (time_hm 9 5). Proof. reflexivity. Qed.
Example strptime_ex2 : strptime_HM (lit "9:5") = Ok (time_hm 9 5). Proof. reflexivity. Qed.
Example strptime_ex3 : strptime_HM (lit "24:00") = Raise ValueError. Proof. reflexivity. Qed.
Example strptime_ex4 : strptime_HM (lit "12:345") = Raise ValueError. Proof. reflexivity. Qed.
Example strptime_ex5 : strptime_HM (lit "23:59") = Ok (time_hm 23 59). Proof. reflexivity. Qed.
Example get_schedule_ex1 :
  _get_schedule (Some (mk_config 1 (lit "09:00"))) (combine 739905 (time_hm 12 0))
  = Ok (time_hm 1 0). Proof. reflexivity. Qed.
Example get_schedule_ex2 :
  _get_schedule (Some (mk_config 1 (lit "07:30"))) (combine 739905 (time_hm 0 0))
  = Ok (time_hm 23 30). Proof. reflexivity. Qed.
Example get_schedule_ex3 :
  _get_schedule (Some (mk_config 1 (lit "07:30"))) (combine 1 (time_hm 0 0))
  = Raise OverflowError. Proof. reflexivity. Qed.
Example loop_ex1 :
  let cfg := mk_config 42 (lit "09:00") in
  trivia_loop (tick_env (combine 739905 (time_hm 1 0)) 0 [42] bees)
    (mk_world (init (Some cfg)) [])
  = (mk_world (mk_trivia true (Some 739905) (Some cfg))
       [Fetch; Send 42 (EmbedMsg TRIVIA_TITLE (JStr (lit "Bees can fly.")) TRIVIA_IMAGE)],
     Ok tt).
Proof. reflexivity. Qed.
Example loop_ex2 :
  let cfg := mk_config 42 (lit "09:00") in
  trivia_loop (tick_env (combine 739905 (time_hm 1 0)) 0 [42] (Response 500 None))
    (mk_world (init (Some cfg)) [])
  = (mk_world (init (Some cfg))
       [Fetch; Send 42 (Text (lit "An error occurred while fetching trivia. Error code: 500"))],
     Ok tt).
Proof. reflexivity. Qed.

Example dedent_ex1 :
  dedent (spaces 2 ++ lit "a" ++ [newline] ++ spaces 4 ++ lit "b" ++ [newline])
  = lit "a" ++ [newline] ++ spaces 2 ++ lit "b" ++ [newline].
Proof. reflexivity. Qed.
Example dedent_ex2 :
  dedent (spaces 2 ++ lit "a" ++ [newline; tab] ++ lit "b")
  = spaces 2 ++ lit "a" ++ [newline; tab] ++ lit "b".
Proof. reflexivity. Qed.
Example config_ex1 :
  cmd_config [42] (init (Some (mk_config 42 (lit "09:00"))))
  = Ok (ReplyEmbed (lit "Trivia Config")
          ([newline] ++ lit "Channel: <#42>" ++ [newline] ++ lit "Schedule: 09:00" ++ [newline])).
Proof. reflexivity. Qed.
Example config_ex2 :
  cmd_config [7] (init (Some (mk_config 42 (lit "09:00")))) = Raise AttributeError.
Proof. reflexivity. Qed.

(* ------------------------------------------------------------------ *)
(** ** Character classes *)

(** Every character predicate of the patterns depends only on [cls]; each
    lemma is checked on the 256 characters. *)
Ltac all_chars := match goal with c : ascii |- _ => destruct c as [[] [] [] [] [] [] [] []] end; reflexivity.

Lemma in09_cls c :
  in_range "0" "9" c = match cls c with C01 | C2 | C3 | C45 | C69 => true | _ => false end.
Proof. all_chars. Qed.

Lemma in05_cls c :
  in_range "0" "5" c = match cls c with C01 | C2 | C3 | C45 => true | _ => false end.
Proof. all_chars. Qed.

Lemma in03_cls c :
  in_range "0" "3" c = match cls c with C01 | C2 | C3 => true | _ => false end.
Proof. all_chars. Qed.

Lemma in01_cls c :
  in_range "0" "1" c = match cls c with C01 => true | _ => false end.
Proof. all_chars. Qed.

Lemma set01_cls c :
  in_set "01" c = match cls c with C01 => true | _ => false end.
Proof. all_chars. Qed.

Lemma eq2_cls c : Ascii.eqb "2" c = match cls c with C2 => true | _ => false end.
Proof. all_chars. Qed.

Lemma colon_cls c : Ascii.eqb ":" c = match cls c with CColon => true | _ => false end.
Proof. all_chars. Qed.

Lemma newline_cls c : Ascii.eqb c newline = match cls c with CNL => true | _ => false end.
Proof. all_chars. Qed.

Lemma cls_CNL c : cls c = CNL -> c = newline.
Proof. destruct c as [[] [] [] [] [] [] [] []]; cbv; congruence. Qed.

Ltac to_classes :=
  rewrite ?in09_cls, ?in05_cls, ?in03_cls, ?in01_cls, ?set01_cls, ?eq2_cls,
          ?colon_cls, ?newline_cls.

Ltac split_classes :=
  repeat (match goal with |- context [cls ?c] => destruct (cls c) eqn:? end;
          cbn; try reflexivity).

Lemma check_time_no_newline (s : str) (Hnl : forall p, s <> p ++ [newline]) :
  _check_time s = valid_H_or_HH_MM s.
Proof.
  destruct s as [|c1 [|c2 [|c3 [|c4 [|c5 [|c6 [|c7 t]]]]]]];
  unfold _check_time, re_match, valid_H_or_HH_MM, valid_HHMM, is_digit;
  cbn -[in_range in_set Ascii.eqb]; rewrite ?Nat.eqb_refl;
  cbn -[in_range in_set Ascii.eqb]; to_classes; split_classes; try reflexivity;
  exfalso;
  repeat match goal with H : cls _ = CNL |- _ => apply cls_CNL in H; subst end;
  match goal with H : forall p, ?s <> p ++ [newline] |- _ =>
    apply (H (removelast s)); reflexivity end.
Qed.

Lemma cls_code c :
  match cls c with
  | C01 => (48 <= code c <= 49)%N
  | C2 => code c = 50%N
  | C3 => code c = 51%N
  | C45 => (52 <= code c <= 53)%N
  | C69 => (54 <= code c <= 57)%N
  | _ => True
  end.
Proof. destruct c as [[] [] [] [] [] [] [] []]; vm_compute; try split; try congruence; exact I. Qed.

Ltac digit_bounds :=
  repeat match goal with
  | H : cls ?c = ?k |- _ =>
      let B := fresh "B" in
      pose proof (cls_code c) as B; rewrite H in B; clear H
  end.

(** What [strptime(s, "%H:%M")] can return: a valid hour and minute. *)
Lemma strptime_HM_bounds s t :
  strptime_HM s = Ok t ->
  exists h m, t = time_hm h m /\ 0 <= h <= 23 /\ 0 <= m <= 59.
Proof.
  destruct s as [|c1 [|c2 [|c3 [|c4 [|c5 [|c6 t']]]]]];
  unfold strptime_HM, re_match, int_of_digits;
  cbn -[in_range Ascii.eqb code]; to_classes;
  repeat (match goal with |- context [cls ?c] => destruct (cls c) eqn:? end;
          cbn -[code]; try (intros Hr; discriminate Hr));
  try (intros Hr; discriminate Hr);
  intros Hr; injection Hr as <-; eexists _, _; (split; [reflexivity|]);
  digit_bounds; lia.
Qed.

(* ------------------------------------------------------------------ *)
(** ** The schedule normalizer *)

Definition zrange (lo : Z) (n : nat) : list Z :=
  map (fun i => lo + Z.of_nat i) (seq 0 n).

Lemma in_zrange lo n x : lo <= x < lo + Z.of_nat n -> In x (zrange lo n).
Proof.
  intros Hx. unfold zrange. apply in_map_iff.
  exists (Z.to_nat (x - lo)). split; [lia|]. apply in_seq. lia.
Qed.

Definition time_eqb (a b : time) : bool :=
  (hour a =? hour b) && (minute a =? minute b) && (second a =? second b)
  && (microsecond a =? microsecond b).

Lemma time_eqb_eq a b : time_eqb a b = true -> a = b.
Proof.
  destruct a, b; unfold time_eqb; cbn.
  rewrite !andb_true_iff, !Z.eqb_eq. intros [[[-> ->] ->] ->]. reflexivity.
Qed.

Definition forall_hm (P : Z -> Z -> bool) : bool :=
  forallb (fun h => forallb (fun m => P h m) (zrange 0 60)) (zrange 0 24).

Lemma forall_hm_spec P h m :
  forall_hm P = true -> 0 <= h <= 23 -> 0 <= m <= 59 -> P h m = true.
Proof.
  unfold forall_hm. rewrite forallb_forall. intros HP Hh Hm.
  specialize (HP h (in_zrange 0 24 h ltac:(lia))).
  rewrite forallb_forall in HP. apply HP, in_zrange. lia.
Qed.

Lemma strptime_hhmm_all :
  forall_hm (fun h m => match strptime_HM (hhmm h m) with
                        | Ok t => time_eqb t (time_hm h m)
                        | Raise _ => false
                        end) = true.
Proof. vm_compute. reflexivity. Qed.

Lemma strptime_hhmm h m :
  0 <= h <= 23 -> 0 <= m <= 59 -> strptime_HM (hhmm h m) = Ok (time_hm h m).
Proof.
  intros Hh Hm. pose proof (forall_hm_spec _ h m strptime_hhmm_all Hh Hm) as E.
  cbv beta in E. destruct (strptime_HM (hhmm h m)); [|discriminate].
  f_equal. apply time_eqb_eq, E.
Qed.

Lemma valid_hhmm_all : forall_hm (fun h m => valid_HHMM (hhmm h m)) = true.
Proof. vm_compute. reflexivity. Qed.

Lemma shifted_time_all :
  forall_hm (fun h m => time_eqb (dt_time (h * HOUR + m * MINUTE - SCHEDULE_OFFSET))
                                 (time_hm ((h - 8) mod 24) m)) = true.
Proof. vm_compute. reflexivity. Qed.

Lemma dt_time_add_days x n : dt_time (x + n * DAY) = dt_time x.
Proof. unfold dt_time. rewrite Z_mod_plus_full. reflexivity. Qed.

(** On a date after [datetime.min], the normalizer returns the parsed time
    moved back by the offset, modulo a day. *)
Lemma get_schedule_value cfg today h m :
  strptime_HM (schedule cfg) = Ok (time_hm h m) ->
  0 <= h <= 23 -> 0 <= m <= 59 ->
  2 <= dt_date today <= MAXORDINAL ->
  _get_schedule (Some cfg) today = Ok (dt_time (h * HOUR + m * MINUTE - SCHEDULE_OFFSET)).
Proof.
  intros Hp Hh Hm Hd. unfold _get_schedule. rewrite Hp.
  unfold dt_sub, combine, time_key, time_hm; cbn [hour minute second microsecond].
  set (d := dt_date today) in *.
  replace ((d - 1) * DAY + (h * HOUR + m * MINUTE + 0 * SECOND + 0) - SCHEDULE_OFFSET)
    with ((h * HOUR + m * MINUTE - SCHEDULE_OFFSET) + (d - 1) * DAY) by ring.
  unfold SCHEDULE_OFFSET, DAY, HOUR, MINUTE, SECOND, MAXORDINAL in *.
  replace ((_ <? 0) || (_ <=? _)) with false
    by (symmetry; apply orb_false_iff; rewrite Z.ltb_ge, Z.leb_gt; lia).
  f_equal. apply (dt_time_add_days _ (d - 1)).
Qed.

(* ------------------------------------------------------------------ *)
(** ** Claims on [_check_time] and [_get_schedule] *)

(** Claim C5: for a valid [HH:MM] schedule of hour [h] and minute [m], the
    normalizer returns hour [(h - 8) mod 24] and minute [m], and that hour
    lies in [0, 23].  [today] is the date the clock reports, any date after
    [datetime.min]. *)
Theorem get_schedule_normalizes (cfg : Config) (today : datetime) (h m : Z)
    (Hh : 0 <= h <= 23) (Hm : 0 <= m <= 59) (Hs : schedule cfg = hhmm h m)
    (Hd : 2 <= dt_date today <= MAXORDINAL) :
  _get_schedule (Some cfg) today = Ok (time_hm ((h - 8) mod 24) m)
  /\ 0 <= (h - 8) mod 24 <= 23.
Proof.
  split; [|pose proof (Z.mod_pos_bound (h - 8) 24); lia].
  rewrite (get_schedule_value cfg today h m); try assumption.
  - f_equal. apply time_eqb_eq.
    exact (forall_hm_spec _ h m shifted_time_all Hh Hm).
  - rewrite Hs. apply strptime_hhmm; assumption.
Qed.

Lemma get_schedule_normalizes_witness :
  (0 <= 9 <= 23 /\ 0 <= 0 <= 59 /\ schedule (mk_config 42 (lit "09:00")) = hhmm 9 0
   /\ 2 <= dt_date (combine 739905 (time_hm 12 0)) <= MAXORDINAL)
  /\ (_get_schedule (Some (mk_config 42 (lit "09:00"))) (combine 739905 (time_hm 12 0))
      = Ok (time_hm ((9 - 8) mod 24) 0) /\ 0 <= (9 - 8) mod 24 <= 23).
Proof.
  split.
  - repeat split; try lia; vm_compute; congruence.
  - apply get_schedule_normalizes; [lia | lia | reflexivity |].
    split; vm_compute; congruence.
Defined.

(** On [datetime.min]'s own date 0001-01-01, which no clock of the running
    bot reports, the schedule ["07:00"] makes
    [schedule_with_day - timedelta(hours=8)] raise [OverflowError], while on
    0001-01-02 it gives 23:00; the date-independence below is therefore
    stated for dates after 0001-01-01. *)
Lemma get_schedule_depends_on_min_date :
  _get_schedule (Some (mk_config 42 (lit "07:00"))) (combine 1 (time_hm 12 0))
  <> _get_schedule (Some (mk_config 42 (lit "07:00"))) (combine 2 (time_hm 12 0)).
Proof. vm_compute. discriminate. Qed.

(** Claim C10: for every stored schedule string, two evaluations of the
    normalizer on any two dates (after 0001-01-01) return the same result,
    which therefore depends only on the string and the fixed 8-hour
    offset. *)
Theorem get_schedule_date_independent (cfg : Config) (t1 t2 : datetime)
    (H1 : 2 <= dt_date t1 <= MAXORDINAL) (H2 : 2 <= dt_date t2 <= MAXORDINAL) :
  _get_schedule (Some cfg) t1 = _get_schedule (Some cfg) t2.
Proof.
  destruct (strptime_HM (schedule cfg)) as [t|e] eqn:Hp.
  - destruct (strptime_HM_bounds _ _ Hp) as (h & m & -> & Hh & Hm).
    rewrite (get_schedule_value cfg t1 h m), (get_schedule_value cfg t2 h m);
      auto.
  - unfold _get_schedule. rewrite Hp. reflexivity.
Qed.

Lemma get_schedule_date_independent_witness :
  (2 <= dt_date (combine 739905 (time_hm 12 0)) <= MAXORDINAL
   /\ 2 <= dt_date (combine 2 (time_hm 0 30)) <= MAXORDINAL)
  /\ _get_schedule (Some (mk_config 42 (lit "07:00"))) (combine 739905 (time_hm 12 0))
     = _get_schedule (Some (mk_config 42 (lit "07:00"))) (combine 2 (time_hm 0 30)).
Proof.
  split.
  - split; split; vm_compute; congruence.
  - apply get_schedule_date_independent; split; vm_compute; congruence.
Defined.

(** Claim C7 (counterexample): [_check_time] accepts ["9:05"], whose hour
    has a single digit. *)
Lemma check_time_accepts_one_digit_hour :
  _check_time (lit "9:05") = true /\ valid_HHMM (lit "9:05") = false.
Proof. split; reflexivity. Qed.

(** Claim C7 (as amended): for every string that does not end in a newline,
    [_check_time] returns true exactly when the string is an hour written
    with one digit (0-9) or two digits (00-23), then [:], then a two-digit
    minute 00-59. *)
Theorem check_time_matches_H_or_HH_MM (s : str) (Hnl : forall p, s <> p ++ [newline]) :
  _check_time s = valid_H_or_HH_MM s.
Proof. apply check_time_no_newline; exact Hnl. Qed.

Lemma check_time_matches_H_or_HH_MM_witness :
  (forall p, lit "9:05" <> p ++ [newline])
  /\ _check_time (lit "9:05") = valid_H_or_HH_MM (lit "9:05").
Proof.
  assert (Hnl : forall p, lit "9:05" <> p ++ [newline]).
  { intros p Hp. apply (f_equal (@rev ascii)) in Hp.
    rewrite rev_app_distr in Hp. cbn in Hp. discriminate Hp. }
  split; [exact Hnl|].
  apply check_time_matches_H_or_HH_MM. exact Hnl.
Defined.

(* ------------------------------------------------------------------ *)
(** ** Claims on the administrative commands *)

(** The format check of [setup] and [schedule] tests [_check_time(...) is
    None]; [_check_time] returns a bool, so the test is never true. *)
Lemma check_time_is_never_None s : is_None (PyBool (_check_time s)) = false.
Proof. reflexivity. Qed.

(** Claim C2 (code bug): a malformed schedule is written.  With the config
    set, [/trivia schedule "24:00"] stores ["24:00"]; with the config unset,
    [/trivia setup] with ["abc"] stores ["abc"]; [_check_time] rejects both
    strings. *)
Theorem malformed_schedule_is_persisted :
  let cfg := mk_config 42 (lit "09:00") in
  _check_time (lit "24:00") = false /\ _check_time (lit "abc") = false
  /\ cmd_schedule (lit "24:00") (mk_cmd_world (init (Some cfg)) (Some cfg) [])
     = mk_cmd_world (init (Some (mk_config 42 (lit "24:00"))))
                    (Some (mk_config 42 (lit "24:00")))
                    [lit "Trivia session scheduled at 24:00"]
  /\ cmd_setup 42 (lit "abc") (mk_cmd_world (init None) None [])
     = mk_cmd_world (init (Some (mk_config 42 (lit "abc"))))
                    (Some (mk_config 42 (lit "abc")))
                    [lit "Trivia setup"].
Proof. repeat split; reflexivity. Qed.

(** Claim C9: with the config set (and the store holding it, as after every
    command and after [cog_load]), [schedule] changes only the schedule
    field and keeps [channel_id]; [channel] changes only [channel_id] and
    keeps the schedule. *)
Theorem schedule_and_channel_frame (w : CmdWorld) (cfg : Config) (s : str) (ch : Z)
    (Hset : config (cog w) = Some cfg) (Hdb : db w = Some cfg) :
  config (cog (cmd_schedule s w)) = Some (mk_config (channel_id cfg) s)
  /\ db (cmd_schedule s w) = Some (mk_config (channel_id cfg) s)
  /\ config (cog (cmd_channel ch w)) = Some (mk_config ch (schedule cfg))
  /\ db (cmd_channel ch w) = Some (mk_config ch (schedule cfg)).
Proof.
  unfold cmd_schedule, cmd_channel. rewrite Hset, check_time_is_never_None.
  cbn. rewrite Hdb. repeat split; reflexivity.
Qed.

Lemma schedule_and_channel_frame_witness :
  let cfg := mk_config 42 (lit "09:00") in
  let w := mk_cmd_world (init (Some cfg)) (Some cfg) [] in
  (config (cog w) = Some cfg /\ db w = Some cfg)
  /\ (config (cog (cmd_schedule (lit "18:30") w)) = Some (mk_config 42 (lit "18:30"))
      /\ db (cmd_schedule (lit "18:30") w) = Some (mk_config 42 (lit "18:30"))
      /\ config (cog (cmd_channel 7 w)) = Some (mk_config 7 (lit "09:00"))
      /\ db (cmd_channel 7 w) = Some (mk_config 7 (lit "09:00"))).
Proof.
  cbv zeta. split; [split; reflexivity|].
  apply (schedule_and_channel_frame _ (mk_config 42 (lit "09:00"))); reflexivity.
Defined.

(* ------------------------------------------------------------------ *)
(** ** One tick, step by step *)

Lemma trivia_loop_unset w env :
  config (self w) = None -> trivia_loop env w = (w, Ok tt).
Proof. intros H. unfold trivia_loop, bind, get_self. rewrite H. reflexivity. Qed.

Lemma trivia_loop_set w env cfg :
  config (self w) = Some cfg ->
  trivia_loop env w =
    let w1 := mk_world (after_rollover env (self w)) (log w) in
    match _get_schedule (Some cfg) (datetime_today env) with
    | Raise e => (w1, Raise e)
    | Ok sched =>
        if time_ge (dt_time (datetime_utcnow env)) sched then
          if sent_today (after_rollover env (self w)) then (w1, Ok tt)
          else send_sequence env cfg w1
        else (w1, Ok tt)
    end.
Proof.
  destruct w as [[st sd c] l]; cbn [self config]; intros ->.
  unfold trivia_loop, after_rollover, bind, get_self, set_sent_today, put_self, ret, lift.
  cbn -[_get_schedule send_sequence].
  destruct (date_ne _ sd); cbn -[_get_schedule send_sequence];
  destruct (_get_schedule _ _); cbn -[send_sequence]; try reflexivity;
  destruct (time_ge _ _); cbn -[send_sequence]; try reflexivity;
  destruct st; reflexivity.
Qed.

Lemma send_sequence_fetch_failed w env cfg ch :
  get_channel env (channel_id cfg) = Some ch -> delivery_ok env = true ->
  api_failed env = true ->
  send_sequence env cfg w = (mk_world (self w) (log w ++ failure_notice ch env), Ok tt).
Proof.
  unfold api_failed, failure_notice. intros Hch Hok Hf.
  unfold send_sequence, channel_send, bind, emit. rewrite Hch, Hok.
  destruct (api env) as [st body|]; [|discriminate].
  rewrite Hf. cbn. rewrite <- ?app_assoc; reflexivity.
Qed.

Lemma send_sequence_success w env cfg ch fact :
  get_channel env (channel_id cfg) = Some ch -> delivery_ok env = true ->
  api_fact env = Ok fact ->
  send_sequence env cfg w =
    (mk_world (mk_trivia true (Some (dt_date (datetime_today env))) (config (self w)))
              (log w ++ [Fetch; Send ch (EmbedMsg TRIVIA_TITLE fact TRIVIA_IMAGE)]),
     Ok tt).
Proof.
  unfold api_fact. intros Hch Hok Hf.
  unfold send_sequence, channel_send, bind, emit, lift. rewrite Hch, Hok.
  destruct (api env) as [st body|]; [|discriminate].
  destruct (st =? 200); [|discriminate]. cbn.
  destruct (response_json body) as [j|e]; [|discriminate]. cbn in Hf |- *.
  rewrite Hf. cbn. rewrite <- ?app_assoc; reflexivity.
Qed.

Lemma send_sequence_no_channel w env cfg :
  get_channel env (channel_id cfg) = None -> api_failed env = true ->
  send_sequence env cfg w = (mk_world (self w) (log w ++ [Fetch]), Raise AttributeError).
Proof.
  unfold api_failed. intros Hch Hf.
  unfold send_sequence, channel_send, bind, emit. rewrite Hch.
  destruct (api env) as [st body|]; [|discriminate].
  rewrite Hf. reflexivity.
Qed.

Lemma send_sequence_delivery_failed w env cfg ch :
  get_channel env (channel_id cfg) = Some ch -> delivery_ok env = false ->
  api_failed env = true ->
  send_sequence env cfg w = (mk_world (self w) (log w ++ [Fetch]), Raise HTTPException).
Proof.
  unfold api_failed. intros Hch Hok Hf.
  unfold send_sequence, channel_send, bind, emit. rewrite Hch, Hok.
  destruct (api env) as [st body|]; [|discriminate].
  rewrite Hf. reflexivity.
Qed.

Lemma send_sequence_fetches_first w env cfg :
  exists l, log (fst (send_sequence env cfg w)) = log w ++ Fetch :: l.
Proof.
  unfold send_sequence, channel_send, bind, emit, lift, throw,
    set_sent_today, set_sent_date, get_self, put_self; cbn.
  destruct (get_channel env (channel_id cfg)); destruct (delivery_ok env);
  destruct (api env) as [st body|]; cbn; try (destruct (negb (st =? 200))); cbn;
  try (destruct (response_json body)); cbn;
  try (destruct (and_then _ _)); cbn;
  eexists; rewrite <- ?app_assoc; reflexivity.
Qed.

Lemma after_rollover_not_sent env s :
  sent_today (after_rollover env s) = false <->
  sent_today s = false \/ date_ne (dt_date (datetime_today env)) (sent_date s) = true.
Proof.
  unfold after_rollover; cbn.
  destruct (date_ne _ _), (sent_today s); intuition congruence.
Qed.

Lemma after_rollover_down env s :
  sent_today (after_rollover env s) = false ->
  after_rollover env s = mk_trivia false (sent_date s) (config s).
Proof.
  unfold after_rollover; cbn. destruct (date_ne _ _); [reflexivity|]. intros ->. reflexivity.
Qed.

Lemma tick_fires w env cfg :
  config (self w) = Some cfg -> at_or_after_fire_time cfg env = true ->
  sent_today (after_rollover env (self w)) = false ->
  trivia_loop env w = send_sequence env cfg (mk_world (after_rollover env (self w)) (log w)).
Proof.
  unfold at_or_after_fire_time. intros Hc Hf Hs. rewrite (trivia_loop_set w env cfg Hc).
  cbv zeta. destruct (_get_schedule _ _); [|discriminate]. rewrite Hf, Hs. reflexivity.
Qed.

Lemma tick_fetch_failed w env cfg ch :
  config (self w) = Some cfg -> at_or_after_fire_time cfg env = true ->
  sent_today (after_rollover env (self w)) = false ->
  get_channel env (channel_id cfg) = Some ch -> delivery_ok env = true ->
  api_failed env = true ->
  trivia_loop env w =
    (mk_world (after_rollover env (self w)) (log w ++ failure_notice ch env), Ok tt).
Proof.
  intros Hc Hf Hs Hch Hok Ha. rewrite (tick_fires w env cfg Hc Hf Hs).
  rewrite (send_sequence_fetch_failed _ env cfg ch Hch Hok Ha). reflexivity.
Qed.

Lemma tick_success w env cfg ch fact :
  config (self w) = Some cfg -> at_or_after_fire_time cfg env = true ->
  sent_today (after_rollover env (self w)) = false ->
  get_channel env (channel_id cfg) = Some ch -> delivery_ok env = true ->
  api_fact env = Ok fact ->
  trivia_loop env w =
    (mk_world (mk_trivia true (Some (dt_date (datetime_today env))) (Some cfg))
              (log w ++ [Fetch; Send ch (EmbedMsg TRIVIA_TITLE fact TRIVIA_IMAGE)]),
     Ok tt).
Proof.
  intros Hc Hf Hs Hch Hok Ha. rewrite (tick_fires w env cfg Hc Hf Hs).
  rewrite (send_sequence_success _ env cfg ch fact Hch Hok Ha). cbn. rewrite Hc. reflexivity.
Qed.

Lemma failure_notice_shape ch env :
  api_failed env = true ->
  exists status, failure_notice ch env = [Fetch; Send ch (Text (fetch_error_message status))].
Proof.
  unfold api_failed, failure_notice. destruct (api env); [eauto | discriminate].
Qed.

(** A run of failing ticks after the fire time leaves the flag down and only
    appends failure notices. *)
Lemma run_failures w cfg ch fails :
  config (self w) = Some cfg -> sent_today (self w) = false ->
  (forall e, In e fails ->
     at_or_after_fire_time cfg e = true /\ get_channel e (channel_id cfg) = Some ch
     /\ delivery_ok e = true /\ api_failed e = true) ->
  run fails w =
    (mk_world (mk_trivia false (sent_date (self w)) (Some cfg))
              (log w ++ concat (map (failure_notice ch) fails)), None).
Proof.
  revert w. induction fails as [|e fails IH]; intros w Hc Hs Hall.
  - cbn. rewrite app_nil_r. destruct w as [[st sd c] l]; cbn in *. subst. reflexivity.
  - destruct (Hall e (or_introl eq_refl)) as (Hf & Hch & Hok & Ha).
    assert (Hr : sent_today (after_rollover e (self w)) = false)
      by (apply after_rollover_not_sent; auto).
    cbn [run]. rewrite (tick_fetch_failed w e cfg ch Hc Hf Hr Hch Hok Ha).
    rewrite IH.
    + cbn. rewrite <- app_assoc. reflexivity.
    + exact Hc.
    + unfold after_rollover; cbn. destruct (date_ne _ _); auto.
    + intros e' He'. apply Hall. right. exact He'.
Qed.

Lemma failure_notices_concat ch fails :
  (forall e, In e fails -> api_failed e = true) ->
  failure_notices (concat (map (failure_notice ch) fails)) = length fails
  /\ trivia_posts (concat (map (failure_notice ch) fails)) = 0%nat.
Proof.
  induction fails as [|e fails IH]; intros Hall; [split; reflexivity|].
  destruct (failure_notice_shape ch e (Hall e (or_introl eq_refl))) as [st Hst].
  destruct IH as [IH1 IH2]; [intros; apply Hall; right; assumption|].
  unfold failure_notices, trivia_posts in *. cbn [map concat].
  rewrite Hst, !filter_app, !length_app. cbn. lia.
Qed.

Lemma run_app l1 l2 w :
  run (l1 ++ l2) w =
    match run l1 w with
    | (w', None) => run l2 w'
    | r => r
    end.
Proof.
  revert w. induction l1 as [|e l1 IH]; intros w; [reflexivity|].
  cbn [run app]. destruct (trivia_loop e w) as [w' [u|x]]; [apply IH|].
  destruct (loop_survives x); [apply IH | reflexivity].
Qed.

(* ------------------------------------------------------------------ *)
(** ** Claims on the gate *)

(** Claim C6: on a tick where today's send has not happened yet (the flag
    is down, or the observed date differs from [sent_date]), the gate does
    not fire when the UTC time of day is before the normalized fire time,
    and fires (calls the content API first) when it is at or after it.
    Scenario: schedule ["09:00"] is normalized to 01:00 UTC; a tick at 00:59
    UTC does nothing; the next tick, at 01:00 UTC, fires and posts the
    fact ["Bees can fly."] of the payload [[{"fact": "Bees can fly."}]]. *)
Theorem gate_fires_at_or_after_fire_time (w : World) (env : Env) (cfg : Config) (f : time)
    (Hcfg : config (self w) = Some cfg)
    (Hf : _get_schedule (Some cfg) (datetime_today env) = Ok f)
    (Hnew : sent_today (self w) = false
            \/ date_ne (dt_date (datetime_today env)) (sent_date (self w)) = true) :
  (time_ge (dt_time (datetime_utcnow env)) f = false ->
     trivia_loop env w = (mk_world (after_rollover env (self w)) (log w), Ok tt))
  /\ (time_ge (dt_time (datetime_utcnow env)) f = true ->
      exists l, log (fst (trivia_loop env w)) = log w ++ Fetch :: l)
  /\ (let cfg9 := mk_config 42 (lit "09:00") in
      let tick h m := tick_env (combine 739905 (time_hm h m)) 0 [42] bees in
      _get_schedule (Some cfg9) (datetime_today (tick 0 59)) = Ok (time_hm 1 0)
      /\ run [tick 0 59] (mk_world (init (Some cfg9)) [])
         = (mk_world (init (Some cfg9)) [], None)
      /\ run [tick 0 59; tick 1 0] (mk_world (init (Some cfg9)) [])
         = (mk_world (mk_trivia true (Some 739905) (Some cfg9))
              [Fetch; Send 42 (EmbedMsg TRIVIA_TITLE (JStr (lit "Bees can fly.")) TRIVIA_IMAGE)],
            None)).
Proof.
  apply after_rollover_not_sent in Hnew.
  rewrite (trivia_loop_set w env cfg Hcfg). cbv zeta. rewrite Hf.
  split; [|split].
  - intros Hlt. rewrite Hlt. reflexivity.
  - intros Hge. rewrite Hge, Hnew.
    destruct (send_sequence_fetches_first
                (mk_world (after_rollover env (self w)) (log w)) env cfg) as [l Hl].
    exists l. exact Hl.
  - vm_compute. repeat split; reflexivity.
Qed.

Lemma gate_fires_at_or_after_fire_time_witness :
  let cfg9 := mk_config 42 (lit "09:00") in
  let env := tick_env (combine 739905 (time_hm 1 0)) 0 [42] bees in
  let w := mk_world (init (Some cfg9)) [] in
  (config (self w) = Some cfg9
   /\ _get_schedule (Some cfg9) (datetime_today env) = Ok (time_hm 1 0)
   /\ (sent_today (self w) = false
       \/ date_ne (dt_date (datetime_today env)) (sent_date (self w)) = true))
  /\ exists l, log (fst (trivia_loop env w)) = log w ++ Fetch :: l.
Proof.
  cbv zeta. split; [split; [reflexivity | split; [vm_compute; reflexivity | left; reflexivity]]|].
  apply (gate_fires_at_or_after_fire_time _ _ (mk_config 42 (lit "09:00")) (time_hm 1 0));
    [reflexivity | vm_compute; reflexivity | left; reflexivity | vm_compute; reflexivity].
Defined.

(** Claim C4 (counterexample): the fetch-failure path does not leave
    [sent_today] as it was.  With schedule ["08:00"] (01:00 UTC+8 is 00:00
    UTC), a send on day [D - 1] and a failing fetch on the first tick of day
    [D], the flag goes from true to false: the day-rollover reset of lines
    76-78 has cleared it before the fetch. *)
Lemma fetch_failure_changes_stale_flag :
  let cfg := mk_config 42 (lit "08:00") in
  let w := mk_world (mk_trivia true (Some 739904) (Some cfg)) [] in
  let env := tick_env (combine 739905 (time_hm 0 0)) 0 [42] (Response 503 None) in
  sent_today (self w) = true
  /\ sent_today (self (fst (trivia_loop env w))) = false
  /\ log (fst (trivia_loop env w))
     = [Fetch; Send 42 (Text (lit "An error occurred while fetching trivia. Error code: 503"))].
Proof. vm_compute. repeat split; reflexivity. Qed.

(** Claim C4 (as amended): when the configured channel resolves and accepts
    messages, a tick on which the gate fires and the API answers with a
    non-200 status posts one notice carrying the status code and returns
    with [sent_date] unchanged and [sent_today] false (the rollover reset
    may have cleared a stale flag).  Consequently, from a state with the
    flag down, N such ticks after the fire time followed by one tick whose
    answer carries a fact produce exactly N failure notices and one trivia
    post, the flag stays down after every failing tick, and it is up, with
    today's date, only after the success tick. *)
Theorem fetch_failure_retries (w : World) (cfg : Config) (ch : Z) (env : Env)
    (fails : list Env) (ok : Env) (fact : json)
    (Hcfg : config (self w) = Some cfg)
    (Hchan : forall e, In e (env :: fails ++ [ok]) ->
             get_channel e (channel_id cfg) = Some ch /\ delivery_ok e = true)
    (Hfire : forall e, In e (env :: fails ++ [ok]) -> at_or_after_fire_time cfg e = true)
    (Hfail : forall e, In e (env :: fails) -> api_failed e = true)
    (Hok : api_fact ok = Ok fact) :
  (sent_today (self w) = false
   \/ date_ne (dt_date (datetime_today env)) (sent_date (self w)) = true ->
   trivia_loop env w =
     (mk_world (mk_trivia false (sent_date (self w)) (Some cfg)) (log w ++ failure_notice ch env),
      Ok tt))
  /\ (sent_today (self w) = false ->
      (forall k, sent_today (self (fst (run (firstn k fails) w))) = false)
      /\ run (fails ++ [ok]) w =
         (mk_world (mk_trivia true (Some (dt_date (datetime_today ok))) (Some cfg))
                   (log w ++ concat (map (failure_notice ch) fails)
                          ++ [Fetch; Send ch (EmbedMsg TRIVIA_TITLE fact TRIVIA_IMAGE)]),
          None)
      /\ failure_notices (log (fst (run (fails ++ [ok]) w)))
         = (failure_notices (log w) + length fails)%nat
      /\ trivia_posts (log (fst (run (fails ++ [ok]) w))) = (trivia_posts (log w) + 1)%nat).
Proof.
  assert (Hin_f : forall e, In e fails -> In e (env :: fails ++ [ok]))
    by (intros e He; right; apply in_or_app; left; exact He).
  assert (Hin_ok : In ok (env :: fails ++ [ok]))
    by (right; apply in_or_app; right; left; reflexivity).
  assert (Hall : forall e, In e fails ->
            at_or_after_fire_time cfg e = true /\ get_channel e (channel_id cfg) = Some ch
            /\ delivery_ok e = true /\ api_failed e = true).
  { intros e He. destruct (Hchan e (Hin_f e He)) as [Hc Hd].
    repeat split; auto. apply Hfail. right. exact He. }
  split.
  - intros Hnew. apply after_rollover_not_sent in Hnew.
    destruct (Hchan env (or_introl eq_refl)) as [Hc Hd].
    rewrite (tick_fetch_failed w env cfg ch Hcfg (Hfire env (or_introl eq_refl)) Hnew Hc Hd
               (Hfail env (or_introl eq_refl))).
    rewrite (after_rollover_down env (self w) Hnew), Hcfg. reflexivity.
  - intros Hs.
    assert (Hrun : run (fails ++ [ok]) w =
         (mk_world (mk_trivia true (Some (dt_date (datetime_today ok))) (Some cfg))
                   (log w ++ concat (map (failure_notice ch) fails)
                          ++ [Fetch; Send ch (EmbedMsg TRIVIA_TITLE fact TRIVIA_IMAGE)]),
          None)).
    { rewrite run_app, (run_failures w cfg ch fails Hcfg Hs Hall).
      destruct (Hchan ok Hin_ok) as [Hc Hd]. cbn [run].
      rewrite (tick_success _ ok cfg ch fact);
        [| reflexivity | exact (Hfire ok Hin_ok)
         | unfold after_rollover; cbn; destruct (date_ne _ _); reflexivity
         | exact Hc | exact Hd | exact Hok].
      cbn. rewrite <- app_assoc. reflexivity. }
    split; [|split; [exact Hrun|]].
    + intros k. rewrite (run_failures w cfg ch (firstn k fails) Hcfg Hs).
      * reflexivity.
      * intros e He. apply Hall. rewrite <- (firstn_skipn k fails). apply in_or_app. left. exact He.
    + rewrite Hrun. cbn [fst log].
      destruct (failure_notices_concat ch fails) as [H1 H2].
      { intros e He. apply Hall. exact He. }
      unfold failure_notices, trivia_posts in *.
      rewrite !filter_app, !length_app, H1, H2. cbn. lia.
Qed.

Ltac each_in tac :=
  let e := fresh "e" in let He := fresh "He" in
  intros e He; cbn [In app] in He;
  repeat (destruct He as [<- | He]; [tac|]); contradiction.

Lemma fetch_failure_retries_witness :
  let cfg := mk_config 42 (lit "09:00") in
  let w := mk_world (init (Some cfg)) [] in
  let at_ h m r := tick_env (combine 739905 (time_hm h m)) 0 [42] r in
  let env := at_ 1 0 (Response 500 None) in
  let fails := [at_ 1 1 (Response 500 None); at_ 1 2 (Response 404 None)] in
  let ok := at_ 1 3 bees in
  (config (self w) = Some cfg
   /\ (forall e, In e (env :: fails ++ [ok]) ->
       get_channel e (channel_id cfg) = Some 42 /\ delivery_ok e = true)
   /\ (forall e, In e (env :: fails ++ [ok]) -> at_or_after_fire_time cfg e = true)
   /\ (forall e, In e (env :: fails) -> api_failed e = true)
   /\ api_fact ok = Ok (JStr (lit "Bees can fly.")))
  /\ failure_notices (log (fst (run (fails ++ [ok]) w))) = 2%nat
  /\ trivia_posts (log (fst (run (fails ++ [ok]) w))) = 1%nat.
Proof.
  cbv zeta.
  assert (Hc : forall e, In e
            ([tick_env (combine 739905 (time_hm 1 0)) 0 [42] (Response 500 None)]
             ++ [tick_env (combine 739905 (time_hm 1 1)) 0 [42] (Response 500 None);
                 tick_env (combine 739905 (time_hm 1 2)) 0 [42] (Response 404 None)]
             ++ [tick_env (combine 739905 (time_hm 1 3)) 0 [42] bees]) ->
            get_channel e 42 = Some 42 /\ delivery_ok e = true)
    by (each_in ltac:(split; reflexivity)).
  assert (Hf : forall e, In e
            ([tick_env (combine 739905 (time_hm 1 0)) 0 [42] (Response 500 None)]
             ++ [tick_env (combine 739905 (time_hm 1 1)) 0 [42] (Response 500 None);
                 tick_env (combine 739905 (time_hm 1 2)) 0 [42] (Response 404 None)]
             ++ [tick_env (combine 739905 (time_hm 1 3)) 0 [42] bees]) ->
            at_or_after_fire_time (mk_config 42 (lit "09:00")) e = true)
    by (each_in ltac:(vm_compute; reflexivity)).
  assert (Ha : forall e, In e
            (tick_env (combine 739905 (time_hm 1 0)) 0 [42] (Response 500 None)
             :: [tick_env (combine 739905 (time_hm 1 1)) 0 [42] (Response 500 None);
                 tick_env (combine 739905 (time_hm 1 2)) 0 [42] (Response 404 None)]) ->
            api_failed e = true)
    by (each_in ltac:(reflexivity)).
  assert (Hk : api_fact (tick_env (combine 739905 (time_hm 1 3)) 0 [42] bees)
               = Ok (JStr (lit "Bees can fly."))) by reflexivity.
  split; [split; [reflexivity | split; [exact Hc | split; [exact Hf | split; [exact Ha | exact Hk]]]]|].
  destruct (fetch_failure_retries (mk_world (init (Some (mk_config 42 (lit "09:00")))) [])
              (mk_config 42 (lit "09:00")) 42
              (tick_env (combine 739905 (time_hm 1 0)) 0 [42] (Response 500 None))
              [tick_env (combine 739905 (time_hm 1 1)) 0 [42] (Response 500 None);
               tick_env (combine 739905 (time_hm 1 2)) 0 [42] (Response 404 None)]
              (tick_env (combine 739905 (time_hm 1 3)) 0 [42] bees)
              (JStr (lit "Bees can fly.")) eq_refl Hc Hf Ha Hk) as [_ Hseq].
  destruct (Hseq eq_refl) as (_ & _ & H1 & H2).
  rewrite H1, H2. split; reflexivity.
Defined.

(** Claim C8 (counterexample): a failure inside a tick is not contained.
    With the stored schedule ["24:00"] (which [schedule] accepts), the first
    tick raises [ValueError] out of [datetime.strptime]; the task loop does
    not retry it, so the tick one minute later never runs. *)
Lemma unparsable_schedule_escapes_tick :
  let cfg := mk_config 42 (lit "24:00") in
  let w := mk_world (init (Some cfg)) [] in
  let t1 := tick_env (combine 739905 (time_hm 1 0)) 0 [42] bees in
  let t2 := tick_env (combine 739905 (time_hm 1 1)) 0 [42] bees in
  snd (trivia_loop t1 w) = Raise ValueError /\ run [t1; t2] w = (w, Some ValueError).
Proof. vm_compute. split; reflexivity. Qed.

(** Claim C8 (as amended): the tick has no exception handling.  When the
    stored schedule does not parse, the tick raises [ValueError]; when the
    gate fires, the API answers with a non-200 status and the channel does
    not resolve, the tick raises [AttributeError] after the fetch; when the
    channel resolves but rejects the message, it raises the delivery error.
    None of these is an exception the task loop retries: the loop stops and
    the remaining ticks do not run.  The dispatch state is left as the
    rollover reset made it. *)
Theorem tick_failures_escape (w : World) (env : Env) (envs : list Env) (cfg : Config)
    (Hcfg : config (self w) = Some cfg) :
  (strptime_HM (schedule cfg) = Raise ValueError ->
   run (env :: envs) w = (mk_world (after_rollover env (self w)) (log w), Some ValueError))
  /\ (at_or_after_fire_time cfg env = true ->
      sent_today (self w) = false
      \/ date_ne (dt_date (datetime_today env)) (sent_date (self w)) = true ->
      api_failed env = true ->
      (get_channel env (channel_id cfg) = None ->
       run (env :: envs) w =
         (mk_world (after_rollover env (self w)) (log w ++ [Fetch]), Some AttributeError))
      /\ (forall ch, get_channel env (channel_id cfg) = Some ch -> delivery_ok env = false ->
          run (env :: envs) w =
            (mk_world (after_rollover env (self w)) (log w ++ [Fetch]), Some HTTPException))).
Proof.
  split.
  - intros Hp. cbn [run]. rewrite (trivia_loop_set w env cfg Hcfg).
    unfold _get_schedule at 1. rewrite Hp. reflexivity.
  - intros Hf Hnew Ha. apply after_rollover_not_sent in Hnew.
    cbn [run]. rewrite (tick_fires w env cfg Hcfg Hf Hnew). split.
    + intros Hch. rewrite (send_sequence_no_channel _ env cfg Hch Ha). reflexivity.
    + intros ch Hch Hd. rewrite (send_sequence_delivery_failed _ env cfg ch Hch Hd Ha).
      reflexivity.
Qed.

Lemma tick_failures_escape_witness :
  let cfg := mk_config 42 (lit "09:00") in
  let w := mk_world (init (Some cfg)) [] in
  let env := tick_env (combine 739905 (time_hm 1 0)) 0 [7] (Response 500 None) in
  config (self w) = Some cfg
  /\ run [env] w = (mk_world (init (Some cfg)) [Fetch], Some AttributeError).
Proof.
  cbv zeta. split; [reflexivity|].
  destruct (tick_failures_escape (mk_world (init (Some (mk_config 42 (lit "09:00")))) [])
              (tick_env (combine 739905 (time_hm 1 0)) 0 [7] (Response 500 None)) []
              (mk_config 42 (lit "09:00")) eq_refl) as [_ H].
  destruct (H ltac:(vm_compute; reflexivity) (or_introl eq_refl) eq_refl) as [H1 _].
  rewrite (H1 eq_refl). reflexivity.
Defined.

(** Claim C1 (code bug): the gate does not send once per UTC day when the
    server's local time is not UTC.  Lines 76 and 118 take the date from
    [datetime.today()] (local time) while line 80 compares the time of day
    of [datetime.utcnow()].  On a UTC+8 server, schedule ["09:00"] (fire
    time 01:00 UTC), from the process-start state and with the API always
    answering, a tick every minute of the UTC day 2026-10-16 sends twice: at
    01:00 UTC and again at 16:00 UTC, when the local date turns and resets
    the flag.  On a UTC server the same ticks send once. *)
Theorem gate_sends_twice_per_utc_day_off_utc :
  let cfg := mk_config 42 (lit "09:00") in
  let w := mk_world (init (Some cfg)) [] in
  let D := combine 739905 (time_hm 0 0) in
  fetches (log (fst (run (minute_ticks D (8 * HOUR) 60) w))) = 0%nat
  /\ fetches (log (fst (run (minute_ticks D (8 * HOUR) 61) w))) = 1%nat
  /\ fetches (log (fst (run (minute_ticks D (8 * HOUR) 960) w))) = 1%nat
  /\ fetches (log (fst (run (minute_ticks D (8 * HOUR) 961) w))) = 2%nat
  /\ fetches (log (fst (run (minute_ticks D (8 * HOUR) 1440) w))) = 2%nat
  /\ snd (run (minute_ticks D (8 * HOUR) 1440) w) = None
  /\ fetches (log (fst (run (minute_ticks D 0 1440) w))) = 1%nat.
Proof. vm_compute. repeat split; reflexivity. Qed.

(** Claim C3 (code bug): [sent_date] is recorded in the server's local date,
    not in the UTC date.  On a UTC+8 server, a tick at 17:00 UTC on
    2026-10-16 (local 01:00 on 2026-10-17) sends, and leaves [sent_today]
    true with [sent_date] 2026-10-17 while the UTC date is 2026-10-16. *)
Theorem sent_date_is_local_date :
  let cfg := mk_config 42 (lit "09:00") in
  let env := tick_env (combine 739905 (time_hm 17 0)) (8 * HOUR) [42] bees in
  let w' := fst (trivia_loop env (mk_world (init (Some cfg)) [])) in
  dt_date (datetime_utcnow env) = 739905
  /\ sent_today (self w') = true
  /\ sent_date (self w') = Some 739906.
Proof. vm_compute. repeat split; reflexivity. Qed.

(** What the gate does guarantee, on any server: once a tick has sent, no
    tick with the same local date ([datetime.today()]) sends again. *)
Lemma gate_idle_after_send_same_local_date w env cfg f :
  config (self w) = Some cfg ->
  _get_schedule (Some cfg) (datetime_today env) = Ok f ->
  sent_today (self w) = true ->
  sent_date (self w) = Some (dt_date (datetime_today env)) ->
  trivia_loop env w = (w, Ok tt).
Proof.
  intros Hc Hf Hs Hd. rewrite (trivia_loop_set w env cfg Hc). cbv zeta. rewrite Hf.
  assert (Ha : after_rollover env (self w) = self w).
  { unfold after_rollover, date_ne. destruct (self w) as [st sd c].
    cbn [sent_date] in Hd |- *. subst sd. rewrite Z.eqb_refl. reflexivity. }
  rewrite Ha, Hs. destruct w.
  destruct (time_ge _ _); reflexivity.
Qed.

(** Lines 76-78 act before every later decision of the tick: when the
    observed local date differs from [sent_date], the tick behaves exactly
    as if the flag had been down. *)
Lemma rollover_reset_before_comparison w env cfg :
  config (self w) = Some cfg ->
  date_ne (dt_date (datetime_today env)) (sent_date (self w)) = true ->
  trivia_loop env w
  = trivia_loop env (mk_world (mk_trivia false (sent_date (self w)) (config (self w))) (log w)).
Proof.
  intros Hc Hd.
  rewrite (trivia_loop_set w env cfg Hc).
  rewrite (trivia_loop_set
             (mk_world (mk_trivia false (sent_date (self w)) (config (self w))) (log w))
             env cfg Hc).
  unfold after_rollover. cbn. rewrite Hd. reflexivity.
Qed.

(* ------------------------------------------------------------------ *)
(** ** Further properties of the tick and of runs of the timer task *)

Lemma send_sequence_outcome env cfg w :
  (exists l r, send_sequence env cfg w = (mk_world (self w) (log w ++ l), r)
     /\ (l = [Fetch] \/ exists t, l = [Fetch; Send (channel_id cfg) (Text t)]))
  \/ (exists fact, send_sequence env cfg w =
        (mk_world (mk_trivia true (Some (dt_date (datetime_today env))) (config (self w)))
                  (log w ++ [Fetch; Send (channel_id cfg) (EmbedMsg TRIVIA_TITLE fact TRIVIA_IMAGE)]),
         Ok tt)).
Proof.
  unfold send_sequence, channel_send, get_channel, bind, emit, lift, throw,
    set_sent_today, set_sent_date, get_self, put_self; cbn.
  destruct (existsb _ _); destruct (delivery_ok env); destruct (api env) as [st body|]; cbn;
  try destruct (negb (st =? 200)); cbn;
  try destruct (response_json body); cbn; try destruct (and_then _ _); cbn;
  first [ right; eexists; rewrite <- ?app_assoc; reflexivity
        | left; eexists _, _; split; [rewrite <- ?app_assoc; reflexivity|];
          first [left; reflexivity | right; eexists; reflexivity] ].
Qed.

Lemma tick_outcome w env cfg :
  config (self w) = Some cfg ->
  (exists l r, trivia_loop env w = (mk_world (after_rollover env (self w)) (log w ++ l), r)
     /\ (l = [] \/ l = [Fetch] \/ exists t, l = [Fetch; Send (channel_id cfg) (Text t)]))
  \/ (exists fact, sent_today (after_rollover env (self w)) = false
      /\ trivia_loop env w =
         (mk_world (mk_trivia true (Some (dt_date (datetime_today env))) (Some cfg))
                   (log w ++ [Fetch; Send (channel_id cfg) (EmbedMsg TRIVIA_TITLE fact TRIVIA_IMAGE)]),
          Ok tt)).
Proof.
  intros Hc. rewrite (trivia_loop_set w env cfg Hc). cbv zeta.
  destruct (_get_schedule _ _) as [f|e];
    [| left; exists [], (Raise e); rewrite app_nil_r; auto].
  destruct (time_ge _ _); [| left; exists [], (Ok tt); rewrite app_nil_r; auto].
  destruct (sent_today (after_rollover env (self w))) eqn:Hs;
    [left; exists [], (Ok tt); rewrite app_nil_r; auto|].
  destruct (send_sequence_outcome env cfg (mk_world (after_rollover env (self w)) (log w)))
    as [(l & r & Heq & Hl)|(fact & Heq)]; rewrite Heq; cbn [self log].
  - left. exists l, r. auto.
  - right. exists fact. split; [reflexivity|].
    f_equal. f_equal. f_equal. unfold after_rollover. cbn [config]. rewrite Hc. reflexivity.
Qed.

Lemma trivia_posts_app l1 l2 : trivia_posts (l1 ++ l2) = (trivia_posts l1 + trivia_posts l2)%nat.
Proof. unfold trivia_posts. rewrite filter_app, length_app. reflexivity. Qed.

Lemma fetches_app l1 l2 : fetches (l1 ++ l2) = (fetches l1 + fetches l2)%nat.
Proof. unfold fetches. rewrite filter_app, length_app. reflexivity. Qed.

Lemma after_rollover_config env s : config (after_rollover env s) = config s.
Proof. reflexivity. Qed.

Lemma after_rollover_same_date env s :
  sent_date s = Some (dt_date (datetime_today env)) -> after_rollover env s = s.
Proof.
  destruct s as [st sd c]; cbn. intros ->. unfold after_rollover, date_ne; cbn.
  rewrite Z.eqb_refl. reflexivity.
Qed.

(** Without a config (line 72), the timer task is inert: over any ticks it
    never calls the API, posts nothing, leaves the dispatch state as it is
    and is never stopped by an exception. *)
Theorem run_without_config_is_inert (envs : list Env) (w : World)
    (Hnone : config (self w) = None) :
  run envs w = (w, None).
Proof.
  induction envs as [|env envs IH]; [reflexivity|].
  cbn [run]. rewrite (trivia_loop_unset w env Hnone). exact IH.
Qed.

(** One tick with a config makes at most one API call and posts at most one
    message, always to the configured channel and only after the call:
    nothing, the call alone, or the call followed by one message. *)
Theorem tick_log_shape (w : World) (env : Env) (cfg : Config)
    (Hcfg : config (self w) = Some cfg) :
  exists l, log (fst (trivia_loop env w)) = log w ++ l
    /\ (l = [] \/ l = [Fetch] \/ exists m, l = [Fetch; Send (channel_id cfg) m]).
Proof.
  destruct (tick_outcome w env cfg Hcfg) as [(l & r & Heq & Hl)|(fact & _ & Heq)];
    rewrite Heq; cbn [fst log].
  - exists l. split; [reflexivity|].
    destruct Hl as [-> | [-> | [t ->]]]; auto. right; right. eexists; reflexivity.
  - eexists. split; [reflexivity|]. right; right. eexists; reflexivity.
Qed.

Lemma run_config_and_log (envs : list Env) (w : World) (cfg : Config)
    (Hcfg : config (self w) = Some cfg) :
  config (self (fst (run envs w))) = Some cfg
  /\ exists l, log (fst (run envs w)) = log w ++ l
     /\ (fetches l <= length envs)%nat
     /\ (forall c m, In (Send c m) l -> c = channel_id cfg).
Proof.
  revert w Hcfg. induction envs as [|env envs IH]; intros w Hcfg.
  - split; [exact Hcfg|]. exists []. rewrite app_nil_r.
    split; [reflexivity|]. split; [cbn; lia|]. intros c m [].
  - assert (Hstep : forall w' l1,
               config (self w') = Some cfg -> log w' = log w ++ l1 ->
               (fetches l1 <= 1)%nat -> (forall c m, In (Send c m) l1 -> c = channel_id cfg) ->
               config (self (fst (run envs w'))) = Some cfg
               /\ exists l, log (fst (run envs w')) = log w ++ l
                  /\ (fetches l <= length (env :: envs))%nat
                  /\ (forall c m, In (Send c m) l -> c = channel_id cfg)).
    { intros w' l1 Hc' Hl' Hf1 Hs1.
      destruct (IH w' Hc') as (Hc'' & l2 & Hl2 & Hf2 & Hs2).
      split; [exact Hc''|]. exists (l1 ++ l2).
      rewrite Hl2, Hl', app_assoc. split; [reflexivity|]. split.
      - rewrite fetches_app. cbn [length]. lia.
      - intros c m Hin. apply in_app_or in Hin as [Hin|Hin]; eauto. }
    assert (Hstop : forall w' l1,
               config (self w') = Some cfg -> log w' = log w ++ l1 ->
               (fetches l1 <= 1)%nat -> (forall c m, In (Send c m) l1 -> c = channel_id cfg) ->
               config (self w') = Some cfg
               /\ exists l, log w' = log w ++ l
                  /\ (fetches l <= length (env :: envs))%nat
                  /\ (forall c m, In (Send c m) l -> c = channel_id cfg)).
    { intros w' l1 Hc' Hl' Hf1 Hs1. split; [exact Hc'|]. exists l1.
      split; [exact Hl'|]. split; [cbn [length]; lia | exact Hs1]. }
    cbn [run].
    destruct (tick_outcome w env cfg Hcfg) as [(l & r & Heq & Hl)|(fact & _ & Heq)];
      rewrite Heq.
    + assert (Hf : (fetches l <= 1)%nat /\ (forall c m, In (Send c m) l -> c = channel_id cfg)).
      { destruct Hl as [-> | [-> | [t ->]]]; cbn; split; try lia;
          intros c m Hin; repeat (destruct Hin as [Hin|Hin]; try congruence); contradiction. }
      destruct Hf as [Hf1 Hs1].
      destruct r as [u|e].
      * apply (Hstep _ l); auto.
      * destruct (loop_survives e); [apply (Hstep _ l) | apply (Hstop _ l)]; auto.
    + apply (Hstep _ [Fetch; Send (channel_id cfg) (EmbedMsg TRIVIA_TITLE fact TRIVIA_IMAGE)]);
        [reflexivity | reflexivity | cbn; lia |].
      intros c m Hin; repeat (destruct Hin as [Hin|Hin]; try congruence); contradiction.
Qed.

Lemma firstn_S_app {A : Type} (k : nat) (l : list A) :
  firstn (S k) l = firstn k l ++ firstn 1 (skipn k l).
Proof.
  revert l. induction k as [|k IH]; intros [|a l]; try reflexivity.
  exact (f_equal (cons a) (IH l)).
Qed.

(** Over any run of the timer task, the config is never changed and every
    message goes to the channel of the config; tick by tick, the [k]-th tick
    (the step from the first [k] ticks to the first [k+1]) adds at most one
    API call to the log, and its messages go to the channel of the config. *)
Theorem run_posts_only_to_configured_channel (envs : list Env) (w : World) (cfg : Config)
    (Hcfg : config (self w) = Some cfg) :
  config (self (fst (run envs w))) = Some cfg
  /\ (exists l, log (fst (run envs w)) = log w ++ l
       /\ (forall c m, In (Send c m) l -> c = channel_id cfg))
  /\ (forall k, exists l,
        log (fst (run (firstn (S k) envs) w)) = log (fst (run (firstn k envs) w)) ++ l
        /\ (fetches l <= 1)%nat
        /\ (forall c m, In (Send c m) l -> c = channel_id cfg)).
Proof.
  destruct (run_config_and_log envs w cfg Hcfg) as (Hc & l & Hl & _ & Hs).
  split; [exact Hc|]. split; [exists l; auto|].
  intros k. rewrite firstn_S_app, run_app.
  pose proof (run_config_and_log (firstn k envs) w cfg Hcfg) as (Hck & _).
  destruct (run (firstn k envs) w) as [w' [x|]]; cbn [fst] in *.
  - exists []. rewrite app_nil_r. split; [reflexivity|]. split; [cbn; lia|]. intros c m [].
  - destruct (run_config_and_log (firstn 1 (skipn k envs)) w' cfg Hck)
      as (_ & l1 & Hl1 & Hf1 & Hs1).
    exists l1. split; [exact Hl1|]. split; [|exact Hs1].
    pose proof (firstn_le_length 1 (skipn k envs)). lia.
Qed.

Lemma tick_keeps_flag_dated w env :
  (sent_today (self w) = true -> sent_date (self w) <> None) ->
  sent_today (self (fst (trivia_loop env w))) = true ->
  sent_date (self (fst (trivia_loop env w))) <> None.
Proof.
  intros Hinv. destruct (config (self w)) as [cfg|] eqn:Hc.
  - destruct (tick_outcome w env cfg Hc) as [(l & r & Heq & _)|(fact & _ & Heq)];
      rewrite Heq; cbn [fst self].
    + unfold after_rollover. cbn [sent_today sent_date].
      destruct (date_ne _ _); [discriminate|]. exact Hinv.
    + intros _. discriminate.
  - rewrite (trivia_loop_unset w env Hc). exact Hinv.
Qed.

(** The tick keeps the invariant that a raised [sent_today] comes with a
    [sent_date]: it holds after any run from a state where it holds (as the
    initial state [sent_today = False, sent_date = None]). *)
Theorem run_keeps_flag_dated (envs : list Env) (w : World)
    (Hinv : sent_today (self w) = true -> sent_date (self w) <> None) :
  sent_today (self (fst (run envs w))) = true -> sent_date (self (fst (run envs w))) <> None.
Proof.
  revert w Hinv. induction envs as [|env envs IH]; intros w Hinv; [exact Hinv|].
  cbn [run]. pose proof (tick_keeps_flag_dated w env Hinv) as Ht.
  destruct (trivia_loop env w) as [w' [u|e]]; cbn [fst] in Ht.
  - apply IH, Ht.
  - destruct (loop_survives e); [apply IH, Ht | exact Ht].
Qed.

(** A tick either posts the trivia embed, in which case the flag was down
    after the day-rollover reset and ends up with [sent_date] the local date
    of the tick; or it posts no embed, in which case [sent_date] is
    unchanged and the flag is what the rollover reset left. *)
Theorem tick_posts_iff_flag_raised (w : World) (env : Env) (cfg : Config)
    (Hcfg : config (self w) = Some cfg) :
  let w' := fst (trivia_loop env w) in
  (trivia_posts (log w') = S (trivia_posts (log w))
   /\ sent_today (after_rollover env (self w)) = false
   /\ sent_today (self w') = true
   /\ sent_date (self w') = Some (dt_date (datetime_today env)))
  \/ (trivia_posts (log w') = trivia_posts (log w)
      /\ sent_today (self w') = sent_today (after_rollover env (self w))
      /\ sent_date (self w') = sent_date (self w)).
Proof.
  cbv zeta.
  destruct (tick_outcome w env cfg Hcfg) as [(l & r & Heq & Hl)|(fact & Hs & Heq)];
    rewrite Heq; cbn [fst self log sent_today sent_date].
  - right. rewrite trivia_posts_app.
    split; [|split; reflexivity].
    destruct Hl as [-> | [-> | [t ->]]]; cbn; lia.
  - left. rewrite trivia_posts_app. cbn. repeat split; [lia | exact Hs].
Qed.

Lemma run_idle_when_sent_on d cfg envs w :
  config (self w) = Some cfg ->
  (forall e, In e envs -> dt_date (datetime_today e) = d) ->
  sent_today (self w) = true -> sent_date (self w) = Some d ->
  trivia_posts (log (fst (run envs w))) = trivia_posts (log w).
Proof.
  revert w. induction envs as [|env envs IH]; intros w Hc Hd Hs Hsd; [reflexivity|].
  assert (Ha : after_rollover env (self w) = self w).
  { apply after_rollover_same_date. rewrite Hsd, (Hd env (or_introl eq_refl)). reflexivity. }
  cbn [run].
  destruct (tick_outcome w env cfg Hc) as [(l & r & Heq & Hl)|(fact & Hs' & Heq)];
    rewrite Heq.
  - assert (Hp : trivia_posts (log w ++ l) = trivia_posts (log w)).
    { rewrite trivia_posts_app. destruct Hl as [-> | [-> | [t ->]]]; cbn; lia. }
    assert (Hrest : trivia_posts (log (fst (run envs (mk_world (after_rollover env (self w)) (log w ++ l)))))
                    = trivia_posts (log w)).
    { rewrite IH; cbn [self log]; rewrite ?Ha; auto. intros e He. apply Hd. right. exact He. }
    destruct r as [u|x]; [exact Hrest|].
    destruct (loop_survives x); [exact Hrest | exact Hp].
  - rewrite Ha, Hs in Hs'. discriminate.
Qed.

(** All the ticks of one local date ([datetime.today().date()]) together
    post the trivia embed at most once, and not at all when the state
    already records a send on that date. *)
Theorem one_post_per_local_date (envs : list Env) (w : World) (cfg : Config) (d : Z)
    (Hcfg : config (self w) = Some cfg)
    (Hday : forall e, In e envs -> dt_date (datetime_today e) = d) :
  (trivia_posts (log (fst (run envs w))) <= S (trivia_posts (log w)))%nat
  /\ (sent_today (self w) = true -> sent_date (self w) = Some d ->
      trivia_posts (log (fst (run envs w))) = trivia_posts (log w)).
Proof.
  split; [|apply run_idle_when_sent_on with cfg; assumption].
  revert w Hcfg. induction envs as [|env envs IH]; intros w Hc; [cbn; lia|].
  assert (Hd' : forall e, In e envs -> dt_date (datetime_today e) = d)
    by (intros e He; apply Hday; right; exact He).
  cbn [run].
  destruct (tick_outcome w env cfg Hc) as [(l & r & Heq & Hl)|(fact & Hs' & Heq)];
    rewrite Heq.
  - assert (Hp : trivia_posts (log w ++ l) = trivia_posts (log w)).
    { rewrite trivia_posts_app. destruct Hl as [-> | [-> | [t ->]]]; cbn; lia. }
    assert (Hrest : (trivia_posts (log (fst (run envs (mk_world (after_rollover env (self w)) (log w ++ l)))))
                    <= S (trivia_posts (log w)))%nat).
    { rewrite <- Hp. apply IH; [exact Hd' | exact Hc]. }
    destruct r as [u|x]; [exact Hrest|].
    destruct (loop_survives x); [exact Hrest | cbn [fst log]; lia].
  - rewrite (run_idle_when_sent_on d cfg); cbn [self log sent_today sent_date config].
    + rewrite trivia_posts_app. cbn. lia.
    + reflexivity.
    + exact Hd'.
    + reflexivity.
    + rewrite (Hday env (or_introl eq_refl)). reflexivity.
Qed.

(* ------------------------------------------------------------------ *)
(** ** Failures of the content API *)

Lemma send_sequence_before_send env cfg w l e :
  log w = l ->
  (api env = TransportError /\ e = RequestException
   \/ exists body, api env = Response 200 body
      /\ and_then (response_json body) (fun j => and_then (json_index0 j) (json_key (lit "fact")))
         = Raise e) ->
  send_sequence env cfg w = (mk_world (self w) (l ++ [Fetch]), Raise e).
Proof.
  intros <- [[Ht ->]|(body & Ha & Hr)];
    unfold send_sequence, bind, emit, lift, throw.
  - rewrite Ht. reflexivity.
  - rewrite Ha. cbn. destruct (response_json body) as [j|x]; cbn in Hr |- *.
    + rewrite Hr. reflexivity.
    + injection Hr as ->. reflexivity.
Qed.

(** When the gate fires and [requests.get] fails at the transport level,
    the tick posts nothing, leaves the flag down, and the task loop goes on
    with the next tick, which tries again. *)
Theorem transport_error_retried_next_tick (w : World) (env : Env) (envs : list Env) (cfg : Config)
    (Hcfg : config (self w) = Some cfg)
    (Hfire : at_or_after_fire_time cfg env = true)
    (Hdown : sent_today (after_rollover env (self w)) = false)
    (Hapi : api env = TransportError) :
  run (env :: envs) w = run envs (mk_world (after_rollover env (self w)) (log w ++ [Fetch])).
Proof.
  cbn [run]. rewrite (tick_fires w env cfg Hcfg Hfire Hdown).
  rewrite (send_sequence_before_send env cfg _ (log w) RequestException); auto.
Qed.

Lemma fact_lookup_errors j e :
  and_then (json_index0 j) (json_key (lit "fact")) = Raise e ->
  e = IndexError \/ e = KeyError \/ e = TypeError.
Proof.
  destruct j as [s|l|kvs|]; cbn.
  - destruct s; cbn; intros H; injection H as <-; auto.
  - destruct l as [|x l]; cbn; [intros H; injection H as <-; auto|].
    destruct x; cbn; try (intros H; injection H as <-; auto).
    destruct (find _ _) as [[k v]|]; intros H; [discriminate | injection H as <-; auto].
  - intros H; injection H as <-; auto.
  - intros H; injection H as <-; auto.
Qed.

(** A 200 answer whose body is not JSON is handled like a transport error
    (the loop goes on and retries); a JSON answer whose first element has no
    ["fact"] (an empty list, a dict, a list whose first item is not a dict
    with that key, ...) raises [IndexError], [KeyError] or [TypeError] after
    the call, posts nothing, and stops the loop. *)
Theorem bad_payload_outcomes (w : World) (env : Env) (envs : list Env) (cfg : Config)
    (Hcfg : config (self w) = Some cfg)
    (Hfire : at_or_after_fire_time cfg env = true)
    (Hdown : sent_today (after_rollover env (self w)) = false) :
  (api env = Response 200 None ->
   run (env :: envs) w = run envs (mk_world (after_rollover env (self w)) (log w ++ [Fetch])))
  /\ (forall j e, api env = Response 200 (Some j) ->
      and_then (json_index0 j) (json_key (lit "fact")) = Raise e ->
      (e = IndexError \/ e = KeyError \/ e = TypeError)
      /\ run (env :: envs) w
         = (mk_world (after_rollover env (self w)) (log w ++ [Fetch]), Some e)).
Proof.
  split.
  - intros Hapi. cbn [run]. rewrite (tick_fires w env cfg Hcfg Hfire Hdown).
    rewrite (send_sequence_before_send env cfg _ (log w) JSONDecodeError); auto.
    right. exists None. split; [exact Hapi | reflexivity].
  - intros j e Hapi Hj. pose proof (fact_lookup_errors j e Hj) as He. split; [exact He|].
    cbn [run]. rewrite (tick_fires w env cfg Hcfg Hfire Hdown).
    rewrite (send_sequence_before_send env cfg _ (log w) e); auto.
    + destruct He as [-> | [-> | ->]]; reflexivity.
    + right. exists (Some j). split; [exact Hapi | exact Hj].
Qed.

(* ------------------------------------------------------------------ *)
(** ** Parsing of schedules *)

Lemma strptime_raises_ValueError s e : strptime_HM s = Raise e -> e = ValueError.
Proof.
  unfold strptime_HM. destruct (re_match _ _) as [[rest caps]|];
    [destruct rest|]; intros H; congruence.
Qed.

(** On any date after 0001-01-01, [_get_schedule] fails exactly when
    [strptime(schedule, "%H:%M")] rejects the stored schedule: when strptime
    parses it, the result is a whole-minute time with hour 0-23 and minute
    0-59; when strptime raises, [_get_schedule] raises [ValueError]; and
    whenever [_get_schedule] raises, the exception is [ValueError] and
    strptime has rejected the schedule. *)
Theorem get_schedule_only_parse_errors (cfg : Config) (today : datetime)
    (Hd : 2 <= dt_date today <= MAXORDINAL) :
  (forall t, strptime_HM (schedule cfg) = Ok t ->
     exists h m, _get_schedule (Some cfg) today = Ok (time_hm h m)
                 /\ 0 <= h <= 23 /\ 0 <= m <= 59)
  /\ (forall e, strptime_HM (schedule cfg) = Raise e ->
       _get_schedule (Some cfg) today = Raise ValueError)
  /\ (forall e, _get_schedule (Some cfg) today = Raise e ->
       e = ValueError /\ strptime_HM (schedule cfg) = Raise ValueError).
Proof.
  destruct (strptime_HM (schedule cfg)) as [t|e] eqn:Hp.
  - destruct (strptime_HM_bounds _ _ Hp) as (h & m & -> & Hh & Hm).
    pose proof (get_schedule_value cfg today h m Hp Hh Hm Hd) as Hv.
    split; [|split].
    + intros t _. exists ((h - 8) mod 24), m. rewrite Hv.
      split; [|split; [pose proof (Z.mod_pos_bound (h - 8) 24); lia | exact Hm]].
      f_equal. apply time_eqb_eq. exact (forall_hm_spec _ h m shifted_time_all Hh Hm).
    + intros e He. discriminate He.
    + intros e He. rewrite Hv in He. discriminate He.
  - apply strptime_raises_ValueError in Hp as He. subst e.
    assert (Hg : _get_schedule (Some cfg) today = Raise ValueError)
      by (unfold _get_schedule; rewrite Hp; reflexivity).
    split; [|split].
    + intros t Ht. discriminate Ht.
    + intros _ _. exact Hg.
    + intros e He. rewrite Hg in He. injection He as <-. auto.
Qed.

Lemma cls_colon c : cls c = CColon -> c = ":"%char.
Proof. destruct c as [[] [] [] [] [] [] [] []]; cbv; congruence. Qed.

(** Every schedule that [_check_time] accepts, unless it ends in a newline,
    is parsed by [strptime("%H:%M")] into the hour and minute written on
    either side of the colon, both within range. *)
Theorem checked_schedule_parses (s : str) (Hnl : forall p, s <> p ++ [newline])
    (Hc : _check_time s = true) :
  exists hs ms, s = hs ++ ":"%char :: ms
    /\ strptime_HM s = Ok (time_hm (int_of_digits hs) (int_of_digits ms))
    /\ 0 <= int_of_digits hs <= 23 /\ 0 <= int_of_digits ms <= 59.
Proof.
  rewrite (check_time_no_newline s Hnl) in Hc. clear Hnl. revert Hc.
  destruct s as [|c1 [|c2 [|c3 [|c4 [|c5 [|c6 t]]]]]];
  unfold valid_H_or_HH_MM, valid_HHMM, is_digit, strptime_HM, re_match;
  cbn -[in_range Ascii.eqb code int_of_digits]; to_classes;
  repeat (match goal with |- context [cls ?c] => destruct (cls c) eqn:? end;
          cbn -[code int_of_digits]; try (intros Hr; discriminate Hr));
  try (intros Hr; discriminate Hr); intros _;
  repeat match goal with H : cls _ = CColon |- _ => apply cls_colon in H; subst end;
  match goal with
  | |- exists hs ms, [?a; ":"%char; ?c; ?d] = _ /\ _ => exists [a], [c; d]
  | |- exists hs ms, [?a; ?b; ":"%char; ?d; ?e] = _ /\ _ => exists [a; b], [d; e]
  end;
  (split; [reflexivity|]); (split; [reflexivity|]);
  unfold int_of_digits; cbn -[code]; digit_bounds; lia.
Qed.

Lemma check_hhmm_all : forall_hm (fun h m => _check_time (hhmm h m)) = true.
Proof. vm_compute. reflexivity. Qed.

Lemma check_hhmm_newline_all :
  forall_hm (fun h m => _check_time (hhmm h m ++ [newline])) = true.
Proof. vm_compute. reflexivity. Qed.

(** The canonical [HH:MM] rendering of a valid time is accepted by
    [_check_time] and parsed back by [strptime] to the same hour and
    minute. *)
Theorem canonical_time_round_trip (h m : Z) (Hh : 0 <= h <= 23) (Hm : 0 <= m <= 59) :
  _check_time (hhmm h m) = true /\ strptime_HM (hhmm h m) = Ok (time_hm h m).
Proof.
  split; [exact (forall_hm_spec _ h m check_hhmm_all Hh Hm) | exact (strptime_hhmm h m Hh Hm)].
Qed.

Lemma strptime_ok_no_newline s t :
  strptime_HM s = Ok t -> forall c, In c s -> cls c <> CNL.
Proof.
  destruct s as [|c1 [|c2 [|c3 [|c4 [|c5 [|c6 t']]]]]];
  unfold strptime_HM, re_match;
  cbn -[in_range Ascii.eqb code]; to_classes;
  repeat (match goal with |- context [cls ?c] => destruct (cls c) eqn:? end;
          cbn -[code]; try (intros Hr; discriminate Hr));
  try (intros Hr; discriminate Hr);
  intros _ c Hin; cbn in Hin;
  repeat (destruct Hin as [<- | Hin]; [congruence|]); contradiction.
Qed.

(** A schedule ending in a newline is rejected by [strptime] (and the
    normalizer raises [ValueError]), while [_check_time] accepts
    ["HH:MM\n"] for every valid time, since [$] matches before a final
    newline. *)
Theorem trailing_newline_passes_check_fails_parse (p : str) (ch : Z) (today : datetime) :
  strptime_HM (p ++ [newline]) = Raise ValueError
  /\ _get_schedule (Some (mk_config ch (p ++ [newline]))) today = Raise ValueError
  /\ (forall h m, 0 <= h <= 23 -> 0 <= m <= 59 -> _check_time (hhmm h m ++ [newline]) = true).
Proof.
  assert (Hp : strptime_HM (p ++ [newline]) = Raise ValueError).
  { destruct (strptime_HM (p ++ [newline])) as [t|e] eqn:Hs.
    - exfalso. apply (strptime_ok_no_newline _ t Hs newline).
      + apply in_or_app. right. left. reflexivity.
      + reflexivity.
    - apply strptime_raises_ValueError in Hs. subst. reflexivity. }
  split; [exact Hp|]. split.
  - unfold _get_schedule. cbn [schedule]. rewrite Hp. reflexivity.
  - intros h m Hh Hm. exact (forall_hm_spec _ h m check_hhmm_newline_all Hh Hm).
Qed.

(* ------------------------------------------------------------------ *)
(** ** Decimal rendering of the status code *)

Lemma digit_char_spec x :
  0 <= x <= 9 ->
  Z.of_N (code (ascii_of_nat (Z.to_nat (48 + x)))) = 48 + x
  /\ is_digit (ascii_of_nat (Z.to_nat (48 + x))) = true
  /\ (ascii_of_nat (Z.to_nat (48 + x)) = "0"%char -> x = 0).
Proof.
  intros Hx.
  assert (x = 0 \/ x = 1 \/ x = 2 \/ x = 3 \/ x = 4 \/ x = 5 \/ x = 6 \/ x = 7 \/ x = 8 \/ x = 9)
    as Hc by lia.
  repeat destruct Hc as [-> | Hc]; [..|subst x];
    (split; [reflexivity | split; [reflexivity | intros H; try reflexivity; discriminate H]]).
Qed.

Lemma int_of_digits_snoc l c :
  int_of_digits (l ++ [c]) = int_of_digits l * 10 + (Z.of_N (code c) - 48).
Proof. unfold int_of_digits. rewrite fold_left_app. reflexivity. Qed.

Lemma int_of_digits_single c : int_of_digits [c] = Z.of_N (code c) - 48.
Proof. reflexivity. Qed.

Lemma hd_app_nonempty {A} (x : A) l1 l2 : l1 <> [] -> hd x (l1 ++ l2) = hd x l1.
Proof. destruct l1; [contradiction | reflexivity]. Qed.

Lemma digits_rev_spec f n :
  0 <= n < 2 ^ Z.of_nat (S f) ->
  let ds := rev (digits_rev (S f) n) in
  ds <> [] /\ Forall (fun c => is_digit c = true) ds /\ int_of_digits ds = n
  /\ (n = 0 -> ds = ["0"%char]) /\ (0 < n -> hd "0"%char ds <> "0"%char).
Proof.
  revert n. induction f as [|f IH]; intros n Hn; cbv zeta.
  - assert (Hn10 : n < 10) by (cbn in Hn; lia).
    cbn [digits_rev]. replace (n <? 10) with true by (symmetry; apply Z.ltb_lt; lia).
    cbn [rev app].
    rewrite Z.mod_small in * by lia.
    destruct (digit_char_spec n ltac:(lia)) as (Hcode & Hdig & H0).
    repeat split.
    + discriminate.
    + constructor; [exact Hdig | constructor].
    + rewrite int_of_digits_single. lia.
    + intros ->. reflexivity.
    + intros Hpos Heq. cbn in Heq. apply H0 in Heq. lia.
  - set (d := ascii_of_nat (Z.to_nat (48 + n mod 10))).
    pose proof (Z.mod_pos_bound n 10 ltac:(lia)) as Hm.
    destruct (digit_char_spec (n mod 10) ltac:(lia)) as (Hcode & Hdig & H0). fold d in Hcode, Hdig, H0.
    change (digits_rev (S (S f)) n) with (d :: (if n <? 10 then [] else digits_rev (S f) (n / 10))).
    destruct (n <? 10) eqn:Hlt.
    + apply Z.ltb_lt in Hlt. rewrite Z.mod_small in Hcode, H0 by lia.
      cbn [rev app]. repeat split.
      * discriminate.
      * constructor; [exact Hdig | constructor].
      * rewrite int_of_digits_single. lia.
      * intros ->. cbn in H0. subst d. reflexivity.
      * intros Hpos Heq. cbn in Heq. apply H0 in Heq. lia.
    + apply Z.ltb_ge in Hlt.
      assert (Hq : 0 <= n / 10 < 2 ^ Z.of_nat (S f)).
      { split; [apply Z.div_pos; lia|].
        rewrite Nat2Z.inj_succ in Hn |- *. rewrite Nat2Z.inj_succ in Hn.
        rewrite Z.pow_succ_r in Hn by lia.
        apply Z.div_lt_upper_bound; lia. }
      destruct (IH (n / 10) Hq) as (Hne & Hall & Hval & _ & Hlead). cbv zeta in *.
      cbn [rev]. repeat split.
      * intros Habs. apply app_eq_nil in Habs as [_ Habs]. discriminate Habs.
      * apply Forall_app. split; [exact Hall | constructor; [exact Hdig | constructor]].
      * rewrite int_of_digits_snoc, Hval, Hcode. pose proof (Z.div_mod n 10). lia.
      * intros ->. lia.
      * intros Hpos. rewrite hd_app_nonempty by exact Hne.
        apply Hlead. apply Z.div_str_pos. lia.
Qed.

Lemma str_of_Z_decimal (n : Z) :
  exists ds, str_of_Z n = (if n <? 0 then ["-"%char] else []) ++ ds
  /\ ds <> [] /\ Forall (fun c => is_digit c = true) ds
  /\ int_of_digits ds = Z.abs n
  /\ (n = 0 -> ds = ["0"%char])
  /\ (n <> 0 -> hd "0"%char ds <> "0"%char).
Proof.
  set (a := Z.abs n).
  assert (Hfuel : 0 <= a < 2 ^ Z.of_nat (S (Z.to_nat (Z.log2 a)))).
  { pose proof (Z.log2_nonneg a).
    rewrite Nat2Z.inj_succ, Z2Nat.id by lia.
    destruct (Z.eq_dec a 0) as [-> | Ha]; [cbn; lia|].
    split; [lia|]. apply Z.log2_spec. lia. }
  destruct (digits_rev_spec _ a Hfuel) as (Hne & Hall & Hval & H0 & Hlead). cbv zeta in *.
  exists (rev (digits_rev (S (Z.to_nat (Z.log2 a))) a)).
  split; [|repeat split; auto].
  - unfold str_of_Z. destruct (n <? 0) eqn:Hs.
    + apply Z.ltb_lt in Hs. unfold a. rewrite Z.abs_neq by lia. reflexivity.
    + apply Z.ltb_ge in Hs. unfold a. rewrite Z.abs_eq by lia. reflexivity.
  - intros ->. apply H0. reflexivity.
  - intros Hs. apply Hlead. lia.
Qed.

(** The notice of a failing fetch (line 101) renders the status code in
    canonical decimal: the fixed prefix, a minus sign for a negative code,
    then a nonempty run of digits without leading zero that [int] reads back
    as the code. *)
Theorem fetch_error_message_decimal (status : Z) :
  exists ds, fetch_error_message status
    = lit "An error occurred while fetching trivia. Error code: "
      ++ (if status <? 0 then ["-"%char] else []) ++ ds
  /\ ds <> [] /\ Forall (fun c => is_digit c = true) ds
  /\ int_of_digits ds = Z.abs status
  /\ (status = 0 -> ds = ["0"%char])
  /\ (status <> 0 -> hd "0"%char ds <> "0"%char).
Proof.
  destruct (str_of_Z_decimal status) as (ds & Heq & Hrest).
  exists ds. split; [|exact Hrest].
  unfold fetch_error_message. rewrite Heq. reflexivity.
Qed.

(* ------------------------------------------------------------------ *)
(** ** The [config] command and the other commands *)

Lemma split_lines_app_nl a b :
  ~ In newline a -> split_lines (a ++ newline :: b) = a :: split_lines b.
Proof.
  induction a as [|c a IH]; intros Hn; [reflexivity|].
  cbn [app split_lines].
  assert (Hc : Ascii.eqb c newline = false).
  { apply Ascii.eqb_neq. intros ->. apply Hn. left. reflexivity. }
  rewrite Hc, IH; [reflexivity|]. intros H. apply Hn. right. exact H.
Qed.

Lemma str_of_Z_no_newline n : ~ In newline (str_of_Z n).
Proof.
  destruct (str_of_Z_decimal n) as (ds & Heq & _ & Hall & _). rewrite Heq.
  intros Hin. apply in_app_or in Hin as [Hin|Hin].
  - destruct (n <? 0); cbn in Hin; [destruct Hin as [Hin|[]]; discriminate Hin | exact Hin].
  - rewrite Forall_forall in Hall. specialize (Hall _ Hin). discriminate Hall.
Qed.

Lemma mention_no_newline id : ~ In newline (mention id).
Proof.
  unfold mention. intros Hin. apply in_app_or in Hin as [Hin|Hin].
  - cbn in Hin. repeat (destruct Hin as [Hin|Hin]; [discriminate Hin|]). exact Hin.
  - apply in_app_or in Hin as [Hin|Hin].
    + exact (str_of_Z_no_newline id Hin).
    + cbn in Hin. repeat (destruct Hin as [Hin|Hin]; [discriminate Hin|]). exact Hin.
Qed.

Lemma dedent_config_fstring m s :
  ~ In newline m -> ~ In newline s ->
  dedent (config_fstring m s)
  = [newline] ++ lit "Channel: " ++ m ++ [newline] ++ lit "Schedule: " ++ s ++ [newline].
Proof.
  intros Hm Hs.
  assert (Hsplit : split_lines (config_fstring m s)
                   = [[]; spaces 16 ++ lit "Channel: " ++ m;
                      spaces 16 ++ lit "Schedule: " ++ s; spaces 12]).
  { replace (config_fstring m s)
      with (newline :: ((spaces 16 ++ lit "Channel: " ++ m)
                        ++ newline :: ((spaces 16 ++ lit "Schedule: " ++ s)
                        ++ newline :: spaces 12)))
      by (unfold config_fstring; rewrite <- !app_assoc; reflexivity).
    cbn [split_lines Ascii.eqb newline]. 
    rewrite split_lines_app_nl, split_lines_app_nl; [reflexivity | |].
    - intros Hin. apply in_app_or in Hin as [Hin|Hin]; [cbn in Hin; intuition discriminate|].
      apply in_app_or in Hin as [Hin|Hin]; [cbn in Hin; intuition discriminate | exact (Hs Hin)].
    - intros Hin. apply in_app_or in Hin as [Hin|Hin]; [cbn in Hin; intuition discriminate|].
      apply in_app_or in Hin as [Hin|Hin]; [cbn in Hin; intuition discriminate | exact (Hm Hin)]. }
  unfold dedent. rewrite Hsplit. cbn. rewrite <- ?app_assoc. reflexivity.
Qed.

(** [/trivia config]: without a config it replies with the setup hint; when
    the configured channel is not visible it raises [AttributeError]; else,
    for a schedule without newline, the embed's description is exactly
    ["\nChannel: <#id>\nSchedule: <schedule>\n"], the source indentation
    removed by [dedent]. *)
Theorem config_command_reply (visible : list Z) (t : Trivia) :
  (config t = None -> cmd_config visible t = Ok (ReplyText MSG_SETUP_FIRST))
  /\ (forall cfg, config t = Some cfg -> ~ In (channel_id cfg) visible ->
      cmd_config visible t = Raise AttributeError)
  /\ (forall cfg, config t = Some cfg -> In (channel_id cfg) visible ->
      ~ In newline (schedule cfg) ->
      cmd_config visible t
      = Ok (ReplyEmbed (lit "Trivia Config")
              ([newline] ++ lit "Channel: " ++ mention (channel_id cfg)
               ++ [newline] ++ lit "Schedule: " ++ schedule cfg ++ [newline]))).
Proof.
  unfold cmd_config, bot_get_channel.
  split; [intros ->; reflexivity|]. split.
  - intros cfg -> Hn. destruct (existsb _ _) eqn:He; [|reflexivity].
    exfalso. apply existsb_exists in He as (x & Hx & Hq). apply Z.eqb_eq in Hq. subst x.
    exact (Hn Hx).
  - intros cfg -> Hin Hs.
    replace (existsb (Z.eqb (channel_id cfg)) visible) with true.
    + rewrite dedent_config_fstring; [reflexivity | apply mention_no_newline | exact Hs].
    + symmetry. apply existsb_exists. exists (channel_id cfg). split; [exact Hin | apply Z.eqb_refl].
Qed.

(** The [schedule], [channel] and [setup] commands keep the cog's cached
    config equal to the stored record, never touch [sent_today] or
    [sent_date], and never remove a stored record. *)
Theorem commands_keep_cache_and_dispatch_state (w : CmdWorld) (s : str) (ch : Z)
    (Hsync : config (cog w) = db w) :
  forall w', w' = cmd_schedule s w \/ w' = cmd_channel ch w \/ w' = cmd_setup ch s w ->
  config (cog w') = db w'
  /\ sent_today (cog w') = sent_today (cog w)
  /\ sent_date (cog w') = sent_date (cog w)
  /\ (db w <> None -> db w' <> None).
Proof.
  intros w' Hw. destruct w as [t row rs]; cbn [cog db] in *.
  unfold cmd_schedule, cmd_channel, cmd_setup in Hw; cbn [cog db replies] in Hw.
  destruct (config t) as [cfg|] eqn:Hc; subst row;
    destruct Hw as [-> | [-> | ->]]; cbn;
    repeat split; try assumption; try (intros _; discriminate); congruence.
Qed.


(* ------------------------------------------------------------------ *)
(** ** Instances of the properties above *)

Lemma run_without_config_is_inert_witness :
  config (self (mk_world (init None) [])) = None
  /\ run [tick_env (combine 739905 (time_hm 1 0)) 0 [42] bees] (mk_world (init None) [])
     = (mk_world (init None) [], None).
Proof. split; [reflexivity|]. apply run_without_config_is_inert. reflexivity. Defined.

Lemma tick_log_shape_witness :
  let cfg := mk_config 42 (lit "09:00") in
  let w := mk_world (init (Some cfg)) [] in
  let env := tick_env (combine 739905 (time_hm 1 0)) 0 [42] bees in
  config (self w) = Some cfg
  /\ exists l, log (fst (trivia_loop env w)) = log w ++ l
     /\ (l = [] \/ l = [Fetch] \/ exists m, l = [Fetch; Send (channel_id cfg) m]).
Proof.
  cbv zeta. split; [reflexivity|].
  apply (tick_log_shape _ _ (mk_config 42 (lit "09:00"))). reflexivity.
Defined.

Lemma run_posts_only_to_configured_channel_witness :
  let cfg := mk_config 42 (lit "09:00") in
  let w := mk_world (init (Some cfg)) [] in
  let envs := minute_ticks (combine 739905 (time_hm 0 59)) 0 3 in
  config (self w) = Some cfg
  /\ config (self (fst (run envs w))) = Some cfg
  /\ (exists l, log (fst (run envs w)) = log w ++ l
       /\ (forall c m, In (Send c m) l -> c = channel_id cfg))
  /\ (forall k, exists l,
        log (fst (run (firstn (S k) envs) w)) = log (fst (run (firstn k envs) w)) ++ l
        /\ (fetches l <= 1)%nat
        /\ (forall c m, In (Send c m) l -> c = channel_id cfg)).
Proof.
  cbv zeta. split; [reflexivity|].
  apply (run_posts_only_to_configured_channel _ _ (mk_config 42 (lit "09:00"))). reflexivity.
Defined.

Lemma run_keeps_flag_dated_witness :
  let w := mk_world (init (Some (mk_config 42 (lit "09:00")))) [] in
  let envs := minute_ticks (combine 739905 (time_hm 0 59)) 0 3 in
  (sent_today (self w) = true -> sent_date (self w) <> None)
  /\ (sent_today (self (fst (run envs w))) = true -> sent_date (self (fst (run envs w))) <> None).
Proof.
  cbv zeta.
  assert (H : sent_today (self (mk_world (init (Some (mk_config 42 (lit "09:00")))) [])) = true ->
              sent_date (self (mk_world (init (Some (mk_config 42 (lit "09:00")))) [])) <> None)
    by (intros Hs; discriminate Hs).
  split; [exact H|]. apply run_keeps_flag_dated. exact H.
Defined.

Lemma tick_posts_iff_flag_raised_witness :
  let cfg := mk_config 42 (lit "09:00") in
  let w := mk_world (init (Some cfg)) [] in
  let env := tick_env (combine 739905 (time_hm 1 0)) 0 [42] bees in
  let w' := fst (trivia_loop env w) in
  config (self w) = Some cfg
  /\ ((trivia_posts (log w') = S (trivia_posts (log w))
       /\ sent_today (after_rollover env (self w)) = false
       /\ sent_today (self w') = true
       /\ sent_date (self w') = Some (dt_date (datetime_today env)))
      \/ (trivia_posts (log w') = trivia_posts (log w)
          /\ sent_today (self w') = sent_today (after_rollover env (self w))
          /\ sent_date (self w') = sent_date (self w))).
Proof.
  cbv zeta. split; [reflexivity|].
  exact (tick_posts_iff_flag_raised (mk_world (init (Some (mk_config 42 (lit "09:00")))) [])
           (tick_env (combine 739905 (time_hm 1 0)) 0 [42] bees) (mk_config 42 (lit "09:00")) eq_refl).
Defined.

Lemma one_post_per_local_date_witness :
  let cfg := mk_config 42 (lit "09:00") in
  let w := mk_world (init (Some cfg)) [] in
  let envs := [tick_env (combine 739905 (time_hm 1 0)) 0 [42] bees;
               tick_env (combine 739905 (time_hm 1 1)) 0 [42] bees;
               tick_env (combine 739905 (time_hm 23 59)) 0 [42] bees] in
  (config (self w) = Some cfg
   /\ forall e, In e envs -> dt_date (datetime_today e) = 739905)
  /\ (trivia_posts (log (fst (run envs w))) <= S (trivia_posts (log w)))%nat.
Proof.
  cbv zeta.
  assert (Hd : forall e, In e [tick_env (combine 739905 (time_hm 1 0)) 0 [42] bees;
                               tick_env (combine 739905 (time_hm 1 1)) 0 [42] bees;
                               tick_env (combine 739905 (time_hm 23 59)) 0 [42] bees] ->
               dt_date (datetime_today e) = 739905)
    by (each_in ltac:(vm_compute; reflexivity)).
  split; [split; [reflexivity | exact Hd]|].
  exact (proj1 (one_post_per_local_date _ (mk_world (init (Some (mk_config 42 (lit "09:00")))) [])
                  (mk_config 42 (lit "09:00")) 739905 eq_refl Hd)).
Defined.

Lemma transport_error_retried_next_tick_witness :
  let cfg := mk_config 42 (lit "09:00") in
  let w := mk_world (init (Some cfg)) [] in
  let env := tick_env (combine 739905 (time_hm 1 0)) 0 [42] TransportError in
  let next := tick_env (combine 739905 (time_hm 1 1)) 0 [42] bees in
  (config (self w) = Some cfg /\ at_or_after_fire_time cfg env = true
   /\ sent_today (after_rollover env (self w)) = false /\ api env = TransportError)
  /\ run [env; next] w = run [next] (mk_world (after_rollover env (self w)) (log w ++ [Fetch])).
Proof.
  cbv zeta. split; [split; [reflexivity | split; [vm_compute; reflexivity | split; reflexivity]]|].
  apply (transport_error_retried_next_tick _ _ _ (mk_config 42 (lit "09:00")));
    [reflexivity | vm_compute; reflexivity | reflexivity | reflexivity].
Defined.

Lemma bad_payload_outcomes_witness :
  let cfg := mk_config 42 (lit "09:00") in
  let w := mk_world (init (Some cfg)) [] in
  let env := tick_env (combine 739905 (time_hm 1 0)) 0 [42] (Response 200 (Some (JArr []))) in
  (config (self w) = Some cfg /\ at_or_after_fire_time cfg env = true
   /\ sent_today (after_rollover env (self w)) = false)
  /\ run [env] w = (mk_world (after_rollover env (self w)) (log w ++ [Fetch]), Some IndexError).
Proof.
  cbv zeta. split; [split; [reflexivity | split; [vm_compute; reflexivity | reflexivity]]|].
  destruct (bad_payload_outcomes (mk_world (init (Some (mk_config 42 (lit "09:00")))) [])
              (tick_env (combine 739905 (time_hm 1 0)) 0 [42] (Response 200 (Some (JArr [])))) []
              (mk_config 42 (lit "09:00")) eq_refl ltac:(vm_compute; reflexivity) eq_refl)
    as [_ H].
  exact (proj2 (H (JArr []) IndexError eq_refl eq_refl)).
Defined.

Lemma get_schedule_only_parse_errors_witness :
  let today := combine 739905 (time_hm 12 0) in
  let cfg := mk_config 42 (lit "24:00") in
  2 <= dt_date today <= MAXORDINAL
  /\ (forall t, strptime_HM (schedule cfg) = Ok t ->
        exists h m, _get_schedule (Some cfg) today = Ok (time_hm h m)
                    /\ 0 <= h <= 23 /\ 0 <= m <= 59)
  /\ (forall e, strptime_HM (schedule cfg) = Raise e ->
        _get_schedule (Some cfg) today = Raise ValueError)
  /\ (forall e, _get_schedule (Some cfg) today = Raise e ->
        e = ValueError /\ strptime_HM (schedule cfg) = Raise ValueError).
Proof.
  cbv zeta.
  assert (Hd : 2 <= dt_date (combine 739905 (time_hm 12 0)) <= MAXORDINAL)
    by (split; vm_compute; congruence).
  split; [exact Hd|]. apply get_schedule_only_parse_errors. exact Hd.
Defined.

Lemma checked_schedule_parses_witness :
  ((forall p, lit "9:05" <> p ++ [newline]) /\ _check_time (lit "9:05") = true)
  /\ exists hs ms, lit "9:05" = hs ++ ":"%char :: ms
     /\ strptime_HM (lit "9:05") = Ok (time_hm (int_of_digits hs) (int_of_digits ms))
     /\ 0 <= int_of_digits hs <= 23 /\ 0 <= int_of_digits ms <= 59.
Proof.
  assert (Hnl : forall p, lit "9:05" <> p ++ [newline]).
  { intros p Hp. apply (f_equal (@rev ascii)) in Hp.
    rewrite rev_app_distr in Hp. cbn in Hp. discriminate Hp. }
  split; [split; [exact Hnl | reflexivity]|].
  apply checked_schedule_parses; [exact Hnl | reflexivity].
Defined.

Lemma canonical_time_round_trip_witness :
  (0 <= 7 <= 23 /\ 0 <= 30 <= 59)
  /\ _check_time (hhmm 7 30) = true /\ strptime_HM (hhmm 7 30) = Ok (time_hm 7 30).
Proof. split; [lia|]. apply canonical_time_round_trip; lia. Defined.

Lemma trailing_newline_passes_check_fails_parse_witness :
  (0 <= 9 <= 23 /\ 0 <= 0 <= 59)
  /\ _check_time (hhmm 9 0 ++ [newline]) = true
  /\ _get_schedule (Some (mk_config 42 (hhmm 9 0 ++ [newline]))) (combine 739905 (time_hm 12 0))
     = Raise ValueError.
Proof.
  destruct (trailing_newline_passes_check_fails_parse (hhmm 9 0) 42 (combine 739905 (time_hm 12 0)))
    as (_ & Hg & Hc).
  split; [lia|]. split; [apply Hc; lia | exact Hg].
Defined.

Lemma config_command_reply_witness :
  let t := init (Some (mk_config 42 (lit "09:00"))) in
  (config t = Some (mk_config 42 (lit "09:00")) /\ In 42 [42]
   /\ ~ In newline (schedule (mk_config 42 (lit "09:00"))))
  /\ cmd_config [42] t
     = Ok (ReplyEmbed (lit "Trivia Config")
             ([newline] ++ lit "Channel: " ++ mention 42
              ++ [newline] ++ lit "Schedule: " ++ lit "09:00" ++ [newline])).
Proof.
  cbv zeta.
  assert (Hn : ~ In newline (schedule (mk_config 42 (lit "09:00")))).
  { cbn. intros Hin. repeat (destruct Hin as [Hin|Hin]; [discriminate Hin|]). exact Hin. }
  split; [split; [reflexivity | split; [left; reflexivity | exact Hn]]|].
  destruct (config_command_reply [42] (init (Some (mk_config 42 (lit "09:00")))))
    as (_ & _ & H).
  exact (H (mk_config 42 (lit "09:00")) eq_refl (or_introl eq_refl) Hn).
Defined.

Lemma commands_keep_cache_and_dispatch_state_witness :
  let cfg := mk_config 42 (lit "09:00") in
  let w := mk_cmd_world (mk_trivia true (Some 739905) (Some cfg)) (Some cfg) [] in
  let w' := cmd_schedule (lit "24:00") w in
  config (cog w) = db w
  /\ config (cog w') = db w'
  /\ sent_today (cog w') = true
  /\ sent_date (cog w') = Some 739905
  /\ db w' <> None.
Proof.
  cbv zeta.
  destruct (commands_keep_cache_and_dispatch_state
              (mk_cmd_world (mk_trivia true (Some 739905) (Some (mk_config 42 (lit "09:00"))))
                            (Some (mk_config 42 (lit "09:00"))) [])
              (lit "24:00") 7 eq_refl
              (cmd_schedule (lit "24:00")
                 (mk_cmd_world (mk_trivia true (Some 739905) (Some (mk_config 42 (lit "09:00"))))
                               (Some (mk_config 42 (lit "09:00"))) []))
              (or_introl eq_refl)) as (H1 & H2 & H3 & H4).
  split; [reflexivity|]. split; [exact H1|]. split; [exact H2|]. split; [exact H3|].
  apply H4. discriminate.
Defined.

Lemma gate_idle_after_send_same_local_date_witness :
  let cfg := mk_config 42 (lit "09:00") in
  let w := mk_world (mk_trivia true (Some 739905) (Some cfg)) [] in
  let env := tick_env (combine 739905 (time_hm 13 30)) 0 [42] bees in
  (config (self w) = Some cfg
   /\ _get_schedule (Some cfg) (datetime_today env) = Ok (time_hm 1 0)
   /\ sent_today (self w) = true
   /\ sent_date (self w) = Some (dt_date (datetime_today env)))
  /\ trivia_loop env w = (w, Ok tt).
Proof.
  cbv zeta.
  split; [split; [reflexivity | split; [vm_compute; reflexivity | split; [reflexivity | vm_compute; reflexivity]]]|].
  apply (gate_idle_after_send_same_local_date _ _ (mk_config 42 (lit "09:00")) (time_hm 1 0));
    [reflexivity | vm_compute; reflexivity | reflexivity | vm_compute; reflexivity].
Defined.

Lemma rollover_reset_before_comparison_witness :
  let cfg := mk_config 42 (lit "09:00") in
  let w := mk_world (mk_trivia true (Some 739904) (Some cfg)) [] in
  let env := tick_env (combine 739905 (time_hm 1 0)) 0 [42] bees in
  (config (self w) = Some cfg
   /\ date_ne (dt_date (datetime_today env)) (sent_date (self w)) = true)
  /\ trivia_loop env w
     = trivia_loop env (mk_world (mk_trivia false (sent_date (self w)) (config (self w))) (log w)).
Proof.
  cbv zeta. split; [split; [reflexivity | vm_compute; reflexivity]|].
  apply (rollover_reset_before_comparison _ _ (mk_config 42 (lit "09:00")));
    [reflexivity | vm_compute; reflexivity].
Defined.
